(** * ModelZoo: the query orchestrator (backend/app/orchestrator.py)

    A shallow embedding of [QueryOrchestrator.analyze_query] and
    [QueryOrchestrator.select_model], with the two module-level dictionaries
    of backend/app/config.py they read ([MODEL_CONFIGS] and
    [COMPLEXITY_KEYWORDS]).

    Data model.
    - A Python [str] is a [string]; each [ascii] is one code point in
      U+0000..U+00FF.  On this range [str.lower] maps a string to a string of
      the same range, one code point for one, so the embedding is closed
      under every string operation the orchestrator performs.
    - A Python [int] is a [Z].
    - A Python [dict] with string keys is a [gmap string _]; indexing with
      a missing key raises [KeyError].
    - The [analysis] dictionary has a fixed set of keys and is a record; the
      two keys that only [select_model] adds are optional fields.
    - [Runtime] has [analyze_query] once more, as a run over a heap of
      objects in which the assignments and appends of the source happen in
      place; the function on records is shown to be what such a run
      computes. *)

From Stdlib Require Import ZArith QArith Ascii String List Bool Lia.
From stdpp Require Import base option gmap strings.

Local Open Scope string_scope.
Local Open Scope list_scope.
Local Open Scope Z_scope.

(** ** Code points and the character classes of Python's Unicode database *)

Module Unicode.

Definition ord (c : ascii) : Z := Z.of_N (N_of_ascii c).
Definition chr (n : Z) : ascii := ascii_of_N (Z.to_N n).

Definition between (lo hi : Z) (c : ascii) : bool :=
  (lo <=? ord c) && (ord c <=? hi).

(** [str.isspace] on one code point; also the class [\s] of [re] for
    [str] patterns: TAB..CR, FS..US, SPACE, NEL and NBSP. *)
Definition isspace (c : ascii) : bool :=
  between 9 13 c || between 28 32 c || (ord c =? 133) || (ord c =? 160).

(** Decimal digits (category Nd), the class [\d]: only 0..9 below U+0100. *)
Definition isdecimal (c : ascii) : bool := between 48 57 c.

(** Letters (the L categories): A-Z, a-z, the ordinal indicators, the micro
    sign and the accented letters, without the two operators U+00D7 and
    U+00F7. *)
Definition isalpha (c : ascii) : bool :=
  between 65 90 c || between 97 122 c
  || (ord c =? 170) || (ord c =? 181) || (ord c =? 186)
  || between 192 214 c || between 216 246 c || between 248 255 c.

(** Numeric code points: the decimal digits, the superscripts 1, 2, 3 and
    the three vulgar fractions. *)
Definition isnumeric (c : ascii) : bool :=
  isdecimal c || (ord c =? 178) || (ord c =? 179) || (ord c =? 185)
  || between 188 190 c.

(** The class [\w]: alphanumeric or underscore. *)
Definition isword (c : ascii) : bool :=
  isalpha c || isnumeric c || (ord c =? 95).

(** [str.lower] on one code point: A-Z and the upper-case accented
    letters U+00C0..U+00DE (U+00D7 is the multiplication sign) move up by
    32; every other code point is its own lower case. *)
Definition lower_char (c : ascii) : ascii :=
  if between 65 90 c || (between 192 222 c && negb (ord c =? 215))
  then chr (ord c + 32) else c.

End Unicode.

(** ** The string methods the orchestrator calls *)

Module Str.

(** [len(s)] *)
Definition len (s : string) : Z := Z.of_nat (String.length s).

(** [s.lower()] *)
Fixpoint lower (s : string) : string :=
  match s with
  | EmptyString => EmptyString
  | String c s' => String (Unicode.lower_char c) (lower s')
  end.

(** [s.lstrip()] *)
Fixpoint lstrip (s : string) : string :=
  match s with
  | EmptyString => EmptyString
  | String c s' => if Unicode.isspace c then lstrip s' else s
  end.

(** [s.rstrip()]: a character is kept when it is not white space or
    when something is kept after it. *)
Fixpoint rstrip (s : string) : string :=
  match s with
  | EmptyString => EmptyString
  | String c s' =>
      match rstrip s' with
      | EmptyString => if Unicode.isspace c then EmptyString
                       else String c EmptyString
      | r => String c r
      end
  end.

(** [s.strip()] *)
Definition strip (s : string) : string := rstrip (lstrip s).

(** [sub in s] *)
Fixpoint contains (s sub : string) : bool :=
  if String.prefix sub s then true
  else match s with
       | EmptyString => false
       | String _ s' => contains s' sub
       end.

(** [s.count(c)] for a one-character needle. *)
Fixpoint count_char (s : string) (c : ascii) : Z :=
  match s with
  | EmptyString => 0
  | String c' s' => (if Ascii.eqb c' c then 1 else 0) + count_char s' c
  end.

(** [sep.join(items)] *)
Definition join (sep : string) (items : list string) : string :=
  String.concat sep items.

End Str.

(** ** The fragment of [re] the orchestrator's patterns are written in

    Each pattern is a sequence of items: a literal character, one of the
    classes [\s], [\w], [\d], a class under [+], or the assertion [\b].
    [re.search] is used for its truth value only, so what matters is whether
    some match exists at some position. *)

Module Re.

Inductive cls := Space | Word | Digit.

Definition in_cls (k : cls) (c : ascii) : bool :=
  match k with
  | Space => Unicode.isspace c
  | Word => Unicode.isword c
  | Digit => Unicode.isdecimal c
  end.

Inductive item :=
| Chr (c : ascii)
| Plus (k : cls)
| Boundary.

Definition pattern := list item.

(** A run of literal characters. *)
Fixpoint lit (s : string) : pattern :=
  match s with
  | EmptyString => []
  | String c s' => Chr c :: lit s'
  end.

(** [\b]: the characters on the two sides differ in being word
    characters; the outside of the string counts as a non-word. *)
Definition at_boundary (prev : option ascii) (s : string) : bool :=
  let that := match prev with Some c => Unicode.isword c | None => false end in
  let this := match s with String c _ => Unicode.isword c | EmptyString => false end in
  xorb this that.

(** Does the pattern match a prefix of [s], [prev] being the character
    just before [s]?  Under [+] both continuations are tried: one more
    character of the class, or the rest of the pattern. *)
Fixpoint match_here (p : pattern) : option ascii -> string -> bool :=
  match p with
  | [] => fun _ _ => true
  | i :: p' =>
      let rest := match_here p' in
      match i with
      | Chr c => fun _ s =>
          match s with
          | String c' s' =>
              if Ascii.eqb c c' then rest (Some c') s' else false
          | EmptyString => false
          end
      | Plus k =>
          fix more (prev : option ascii) (s : string) {struct s} : bool :=
            match s with
            | String c s' =>
                if in_cls k c then
                  if more (Some c) s' then true else rest (Some c) s'
                else false
            | EmptyString => false
            end
      | Boundary => fun prev s =>
          if at_boundary prev s then rest prev s else false
      end
  end.

(** The leftmost start is tried first, then the next ones; the end of
    the string is a start too. *)
Fixpoint search_from (p : pattern) (prev : option ascii) (s : string) : bool :=
  if match_here p prev s then true
  else match s with
       | EmptyString => false
       | String c s' => search_from p (Some c) s'
       end.

(** [bool(re.search(p, s))] *)
Definition search (p : pattern) (s : string) : bool := search_from p None s.

End Re.

(** ** Exceptions

    The only exception the orchestrator's own code can raise is the
    [KeyError] of a dictionary indexed with a key it does not hold. *)

Inductive Exception := KeyError (key : string).

Inductive Exc (A : Type) : Type :=
| Ok (a : A)
| Raise (e : Exception).
Arguments Ok {A} a.
Arguments Raise {A} e.

#[global] Instance Exc_ret : MRet Exc := fun _ a => Ok a.
#[global] Instance Exc_bind : MBind Exc := fun _ _ f m =>
  match m with
  | Ok a => f a
  | Raise e => Raise e
  end.

(** [d[k]] *)
Definition getitem {V : Type} (d : gmap string V) (k : string) : Exc V :=
  match d !! k with
  | Some v => Ok v
  | None => Raise (KeyError k)
  end.

(** [k in d] *)
Definition contains_key {V : Type} (k : string) (d : gmap string V) : bool :=
  bool_decide (is_Some (d !! k)).

(** ** backend/app/config.py *)

Module Config.

(** The two fields of [Settings] that [MODEL_CONFIGS] reads; their values
    come from the environment, with the defaults below. *)
Record Settings := {
  azure_openai_gpt4_deployment : string;
  azure_openai_gpt35_deployment : string
}.

Definition default_settings : Settings := {|
  azure_openai_gpt4_deployment := "gpt-4";
  azure_openai_gpt35_deployment := "gpt-35-turbo"
|}.

(** One entry of [MODEL_CONFIGS].  The cost is a decimal literal in the
    source; it is kept as the fraction it denotes. *)
Record ModelConfig := {
  deployment_name : string;
  display_name : string;
  description : string;
  max_tokens : Z;
  capabilities : list string;
  complexity_threshold : Z;
  cost_per_1k_tokens : Q
}.

Definition MODEL_CONFIGS (settings : Settings) : gmap string ModelConfig :=
  {[ "gpt-4" := {|
       deployment_name := azure_openai_gpt4_deployment settings;
       display_name := "GPT-4";
       description := "Most capable model for complex reasoning and analysis";
       max_tokens := 8192;
       capabilities := ["complex_reasoning"; "code_generation"; "analysis";
                        "creative_writing"];
       complexity_threshold := 4;
       cost_per_1k_tokens := (3 # 100)%Q |};
     "gpt-35-turbo" := {|
       deployment_name := azure_openai_gpt35_deployment settings;
       display_name := "GPT-3.5 Turbo";
       description := "Fast and efficient for straightforward tasks";
       max_tokens := 4096;
       capabilities := ["general_chat"; "simple_code"; "summarization";
                        "translation"];
       complexity_threshold := 2;
       cost_per_1k_tokens := (2 # 1000)%Q |} ]}.

Definition COMPLEXITY_KEYWORDS : gmap string (list string) :=
  {[ "high" := [
       "analyze"; "explain in detail"; "compare"; "contrast"; "evaluate";
       "synthesize"; "create a plan"; "design"; "architect"; "optimize";
       "debug complex"; "refactor"; "implement algorithm" ];
     "medium" := [
       "summarize"; "describe"; "list"; "what is"; "how does"; "example";
       "convert"; "translate"; "format"; "write code" ];
     "low" := [
       "hi"; "hello"; "thanks"; "yes"; "no"; "ok"; "bye" ] ]}.

End Config.

(** ** backend/app/orchestrator.py *)

(** The dictionary [analysis].  [recommended_model] starts as [None];
    [selection_reason] and [was_auto_selected] are keys that [select_model]
    adds, absent ([None]) in what [analyze_query] returns. *)
Record Analysis := {
  length_score : Z;
  keyword_score : Z;
  structure_score : Z;
  total_score : Z;
  factors : list string;
  recommended_model : option string;
  selection_reason : option string;
  was_auto_selected : option bool
}.

(** Item assignments [analysis[key] = v], one per key that is assigned. *)
Definition set_length_score (v : Z) (a : Analysis) : Analysis :=
  {| length_score := v; keyword_score := keyword_score a;
     structure_score := structure_score a; total_score := total_score a;
     factors := factors a; recommended_model := recommended_model a;
     selection_reason := selection_reason a;
     was_auto_selected := was_auto_selected a |}.

Definition set_keyword_score (v : Z) (a : Analysis) : Analysis :=
  {| length_score := length_score a; keyword_score := v;
     structure_score := structure_score a; total_score := total_score a;
     factors := factors a; recommended_model := recommended_model a;
     selection_reason := selection_reason a;
     was_auto_selected := was_auto_selected a |}.

Definition set_structure_score (v : Z) (a : Analysis) : Analysis :=
  {| length_score := length_score a; keyword_score := keyword_score a;
     structure_score := v; total_score := total_score a;
     factors := factors a; recommended_model := recommended_model a;
     selection_reason := selection_reason a;
     was_auto_selected := was_auto_selected a |}.

Definition set_total_score (v : Z) (a : Analysis) : Analysis :=
  {| length_score := length_score a; keyword_score := keyword_score a;
     structure_score := structure_score a; total_score := v;
     factors := factors a; recommended_model := recommended_model a;
     selection_reason := selection_reason a;
     was_auto_selected := was_auto_selected a |}.

(** [analysis["factors"].append(f)] *)
Definition append_factor (f : string) (a : Analysis) : Analysis :=
  {| length_score := length_score a; keyword_score := keyword_score a;
     structure_score := structure_score a; total_score := total_score a;
     factors := factors a ++ [f]; recommended_model := recommended_model a;
     selection_reason := selection_reason a;
     was_auto_selected := was_auto_selected a |}.

Definition set_recommended_model (v : string) (a : Analysis) : Analysis :=
  {| length_score := length_score a; keyword_score := keyword_score a;
     structure_score := structure_score a; total_score := total_score a;
     factors := factors a; recommended_model := Some v;
     selection_reason := selection_reason a;
     was_auto_selected := was_auto_selected a |}.

Definition set_selection_reason (v : string) (a : Analysis) : Analysis :=
  {| length_score := length_score a; keyword_score := keyword_score a;
     structure_score := structure_score a; total_score := total_score a;
     factors := factors a; recommended_model := recommended_model a;
     selection_reason := Some v;
     was_auto_selected := was_auto_selected a |}.

Definition set_was_auto_selected (v : bool) (a : Analysis) : Analysis :=
  {| length_score := length_score a; keyword_score := keyword_score a;
     structure_score := structure_score a; total_score := total_score a;
     factors := factors a; recommended_model := recommended_model a;
     selection_reason := selection_reason a;
     was_auto_selected := Some v |}.

(** Truth value of a list and of a string: non-empty. *)
Definition truthy_list {A : Type} (l : list A) : bool :=
  match l with [] => false | _ :: _ => true end.

Definition truthy_str (s : string) : bool :=
  match s with EmptyString => false | String _ _ => true end.

(** The instance: the two attributes [__init__] sets. *)
Record QueryOrchestrator := {
  models : gmap string Config.ModelConfig;
  complexity_keywords : gmap string (list string)
}.

Definition __init__ (settings : Config.Settings) : QueryOrchestrator :=
  {| models := Config.MODEL_CONFIGS settings;
     complexity_keywords := Config.COMPLEXITY_KEYWORDS |}.

(** The patterns of [code_patterns], in the order of the source list. *)
Definition code_patterns : list Re.pattern :=
  [ Re.lit "```";
    Re.lit "def" ++ [Re.Plus Re.Space; Re.Plus Re.Word];
    Re.lit "function" ++ [Re.Plus Re.Space; Re.Plus Re.Word];
    Re.lit "class" ++ [Re.Plus Re.Space; Re.Plus Re.Word];
    Re.lit "import" ++ [Re.Plus Re.Space];
    Re.lit "from" ++ [Re.Plus Re.Space; Re.Plus Re.Word; Re.Plus Re.Space]
      ++ Re.lit "import";
    Re.lit "=>";
    [Re.Boundary] ++ Re.lit "const" ++ [Re.Boundary];
    [Re.Boundary] ++ Re.lit "let" ++ [Re.Boundary] ].

(** The pattern of the numbered-list check: digits, a period, white space. *)
Definition numbered_pattern : Re.pattern :=
  [Re.Plus Re.Digit; Re.Chr "."; Re.Plus Re.Space].

(** Lines 21-28: the dictionary literal [analysis] starts from.  The
    literal is in the body of the method, so every call builds a new
    dictionary with a new, empty [factors] list. *)
Definition initial_analysis : Analysis := {|
  length_score := 0; keyword_score := 0; structure_score := 0;
  total_score := 0; factors := []; recommended_model := None;
  selection_reason := None; was_auto_selected := None |}.

(** Lines 30-40: length analysis. *)
Definition length_analysis (query : string) (analysis : Analysis) : Analysis :=
  let query_length := Str.len query in
  if query_length >? 1000 then
    let analysis := set_length_score 3 analysis in
    append_factor "Very long query (>1000 chars)" analysis
  else if query_length >? 500 then
    let analysis := set_length_score 2 analysis in
    append_factor "Long query (>500 chars)" analysis
  else if query_length >? 200 then
    let analysis := set_length_score 1 analysis in
    append_factor "Medium length query" analysis
  else analysis.

(** Lines 45-61: keyword analysis, on the lower-cased query. *)
Definition keyword_analysis (self : QueryOrchestrator) (query_lower : string)
    (analysis : Analysis) : Exc Analysis :=
  high ← getitem (complexity_keywords self) "high";
  let high_matches :=
    List.filter (fun kw => Str.contains query_lower kw) high in
  let analysis :=
    if truthy_list high_matches then
      let analysis := set_keyword_score (keyword_score analysis + 2) analysis in
      append_factor ("High complexity keywords: "
                     ++ Str.join ", " (firstn 3 high_matches))%string analysis
    else analysis in
  medium ← getitem (complexity_keywords self) "medium";
  let medium_matches :=
    List.filter (fun kw => Str.contains query_lower kw) medium in
  let analysis :=
    if truthy_list medium_matches then
      let analysis := set_keyword_score (keyword_score analysis + 1) analysis in
      append_factor "Medium complexity keywords detected" analysis
    else analysis in
  low ← getitem (complexity_keywords self) "low";
  let low_matches :=
    List.filter (fun kw => String.eqb (Str.strip query_lower) kw) low in
  let analysis :=
    if truthy_list low_matches then
      let analysis := set_keyword_score 0 analysis in
      append_factor "Simple greeting/response" analysis
    else analysis in
  mret analysis.

(** Lines 63-82: structure analysis. *)
Definition structure_analysis (query query_lower : string)
    (analysis : Analysis) : Analysis :=
  let analysis :=
    if existsb (fun pattern => Re.search pattern query) code_patterns then
      let analysis :=
        set_structure_score (structure_score analysis + 2) analysis in
      append_factor "Contains code or technical content" analysis
    else analysis in
  let question_words := Str.count_char query_lower "?" in
  let analysis :=
    if question_words >? 2 then
      let analysis :=
        set_structure_score (structure_score analysis + 1) analysis in
      append_factor "Multiple questions detected" analysis
    else analysis in
  if Re.search numbered_pattern query then
    let analysis :=
      set_structure_score (structure_score analysis + 1) analysis in
    append_factor "Structured list/steps detected" analysis
  else analysis.

(** [QueryOrchestrator.analyze_query] *)
Definition analyze_query (self : QueryOrchestrator) (query : string)
    : Exc Analysis :=
  let analysis := initial_analysis in
  let analysis := length_analysis query analysis in
  let query_lower := Str.lower query in
  analysis ← keyword_analysis self query_lower analysis;
  let analysis := structure_analysis query query_lower analysis in
  let analysis :=
    set_total_score (length_score analysis + keyword_score analysis
                     + structure_score analysis) analysis in
  mret analysis.

(** [QueryOrchestrator.select_model]; [preferred_model] is [None] when the
    caller passes nothing or Python's [None]. *)
Definition select_model (self : QueryOrchestrator) (query : string)
    (preferred_model : option string) : Exc (string * Analysis) :=
  let automatic : Exc (string * Analysis) :=
    analysis ← analyze_query self query;
    let total_score := total_score analysis in
    let '(selected_model, analysis) :=
      if total_score >=? 4 then
        ("gpt-4",
         set_selection_reason
           "High complexity query - using GPT-4 for best results" analysis)
      else if total_score >=? 2 then
        ("gpt-35-turbo",
         set_selection_reason
           "Medium complexity - GPT-3.5 Turbo is efficient" analysis)
      else
        ("gpt-35-turbo",
         set_selection_reason
           "Simple query - using fast GPT-3.5 Turbo" analysis) in
    let analysis := set_recommended_model selected_model analysis in
    let analysis := set_was_auto_selected true analysis in
    mret (selected_model, analysis) in
  match preferred_model with
  | Some preferred =>
      if truthy_str preferred && contains_key preferred (models self) then
        analysis ← analyze_query self query;
        let analysis := set_recommended_model preferred analysis in
        let analysis := set_selection_reason "User specified model" analysis in
        let analysis := set_was_auto_selected false analysis in
        mret (preferred, analysis)
      else automatic
  | None => automatic
  end.

(** The module-level instance [orchestrator = QueryOrchestrator()]. *)
Definition orchestrator (settings : Config.Settings) : QueryOrchestrator :=
  __init__ settings.

(** [QueryOrchestrator.get_model_config].  The default of [dict.get] is an
    argument: [self.models["gpt-35-turbo"]] is looked up before [get] is
    called, whether or not [model_id] is a key. *)
Definition get_model_config (self : QueryOrchestrator) (model_id : string)
    : Exc Config.ModelConfig :=
  fallback ← getitem (models self) "gpt-35-turbo";
  mret (default fallback (models self !! model_id)).

(** [QueryOrchestrator.estimate_tokens]; [//] rounds down. *)
Definition estimate_tokens (self : QueryOrchestrator) (text : string) : Z :=
  Str.len text / 4.

(** The keys of a dictionary literal come out of [items()] in the order the
    literal lists them; a [gmap] does not record that order, so it is kept
    beside the map. *)
Definition MODEL_CONFIGS_order : list string := ["gpt-4"; "gpt-35-turbo"].

(** [d.items()], for a dictionary whose keys were inserted in [order]. *)
Definition dict_items {V : Type} (order : list string) (d : gmap string V)
    : list (string * V) :=
  omap (fun k => match d !! k with Some v => Some (k, v) | None => None end)
       order.

(** One element of the list [get_available_models] returns. *)
Record AvailableModel := {
  am_id : string;
  am_display_name : string;
  am_description : string;
  am_max_tokens : Z;
  am_capabilities : list string
}.

(** [QueryOrchestrator.get_available_models], for an instance whose
    registry is [MODEL_CONFIGS], which is the only one [__init__] builds. *)
Definition get_available_models (self : QueryOrchestrator)
    : list AvailableModel :=
  map (fun '(model_id, config) =>
         {| am_id := model_id;
            am_display_name := Config.display_name config;
            am_description := Config.description config;
            am_max_tokens := Config.max_tokens config;
            am_capabilities := Config.capabilities config |})
      (dict_items MODEL_CONFIGS_order (models self)).

(** ** backend/app/main.py: the two model endpoints

    The handlers call the module-level [orchestrator]; [settings] is the
    environment it was built from. *)

Module Main.

(** The schema [ModelInfo] of backend/app/models.py. *)
Record ModelInfo := {
  id : string;
  display_name : string;
  description : string;
  max_tokens : Z;
  capabilities : list string;
  is_available : bool
}.

(** What a handler gives back: a body, an [HTTPException] it raised, or an
    exception of the code it called. *)
Inductive Response (A : Type) : Type :=
| Body (a : A)
| HTTPException (status_code : Z) (detail : string)
| Uncaught (e : Exception).
Arguments Body {A} a.
Arguments HTTPException {A} status_code detail.
Arguments Uncaught {A} e.

(** [list_models], the handler of GET /api/models. *)
Definition list_models (settings : Config.Settings) : list ModelInfo :=
  let models := get_available_models (orchestrator settings) in
  map (fun m =>
         {| id := am_id m;
            display_name := am_display_name m;
            description := am_description m;
            max_tokens := am_max_tokens m;
            capabilities := am_capabilities m;
            is_available := true |})
      models.

(** Truth value of a configuration: a dictionary is false only when it has
    no key, and every configuration has its seven. *)
Definition truthy_config (config : Config.ModelConfig) : bool := true.

(** [get_model], the handler of GET /api/models/{model_id}. *)
Definition get_model (settings : Config.Settings) (model_id : string)
    : Response ModelInfo :=
  match get_model_config (orchestrator settings) model_id with
  | Raise e => Uncaught e
  | Ok config =>
      if negb (truthy_config config) then
        HTTPException 404 "Model not found"
      else
        Body {| id := model_id;
                display_name := Config.display_name config;
                description := Config.description config;
                max_tokens := Config.max_tokens config;
                capabilities := Config.capabilities config;
                is_available := true |}
  end.

End Main.

(** ** backend/app/azure_client.py

    The Azure OpenAI service is outside the program.  A run of the client
    is a function of the world: the requests sent so far and the number of
    clock readings taken.  What the service answers is a parameter, given
    the requests sent before and the request itself, so that the
    properties hold for every behaviour of the service.  Console output and
    [asyncio.sleep] are left out. *)

Module Azure.

(** A message dictionary, with its two keys. *)
Record Message := { role : string; content : string }.

(** The keyword arguments of [chat.completions.create]. *)
Record Request := {
  model : string;
  messages : list Message;
  max_tokens : Z;
  temperature : Q;
  stream : bool
}.

(** What [create] returns without [stream]: the fields the client reads. *)
Record Choice := { message_content : option string; finish_reason : string }.
Record ChatCompletion := { choices : list Choice; usage : option Z }.

(** An exception that comes out of an awaited call of the SDK, with its
    [str(e)].  It is an instance of [Exception], or of [BaseException]
    only: [asyncio.CancelledError], raised at the awaited call when the
    task is cancelled, [KeyboardInterrupt], [SystemExit]. *)
Inductive ServiceException :=
| Ordinary (message : string)
| BaseOnly (message : string).

(** What [create] returns with [stream]: the chunks, each with the
    [delta.content] of its choices, up to the end or to the exception that
    breaks the iteration. *)
Inductive StreamEvent :=
| Chunk (deltas : list (option string))
| Broken (e : ServiceException).

Definition AsyncStream := list StreamEvent.

(** The exceptions that reach the client's own code: one that comes out of
    the SDK; [IndexError], [AttributeError] and [KeyError] from the
    client's own expressions. *)
Inductive Error :=
| Upstream (e : ServiceException)
| IndexError
| AttributeError
| Key (e : Exception).

(** [isinstance(e, Exception)]: what [except Exception] catches. *)
Definition is_exception (e : Error) : bool :=
  match e with
  | Upstream (BaseOnly _) => false
  | _ => true
  end.

(** [str(e)] *)
Definition str (e : Error) : string :=
  match e with
  | Upstream (Ordinary message) => message
  | Upstream (BaseOnly message) => message
  | IndexError => "list index out of range"
  | AttributeError => "'NoneType' object has no attribute 'split'"
  | Key (KeyError k) => "'" ++ k ++ "'"
  end.

(** [response_time]: the literal of the mock reply, or the difference of
    two readings of [time.time()], named by their ranks. *)
Inductive ResponseTime :=
| Literal (seconds : Q)
| Elapsed (start_time end_time : nat).

(** The dictionary [chat_completion] returns; it has one of two shapes.
    [is_mock] is a key of the mock reply only. *)
Inductive Reply :=
| Completed (content : option string) (model : string) (tokens_used : Z)
    (response_time : ResponseTime) (finish_reason : string) (is_mock : bool)
| Streaming (stream : AsyncStream) (model : string).

Definition reply_model (r : Reply) : string :=
  match r with
  | Completed _ model _ _ _ _ => model
  | Streaming _ model => model
  end.

Record World := { sent : list Request; clock : nat }.

Inductive Outcome (A : Type) : Type :=
| Returns (a : A)
| Raises (e : Error)
| OutOfFuel.
Arguments Returns {A} a.
Arguments Raises {A} e.
Arguments OutOfFuel {A}.

Definition M (A : Type) : Type := World -> Outcome A * World.

Definition ret {A : Type} (a : A) : M A := fun w => (Returns a, w).

Definition raise {A : Type} (e : Error) : M A := fun w => (Raises e, w).

Definition bind {A B : Type} (m : M A) (k : A -> M B) : M B :=
  fun w =>
    match m w with
    | (Returns a, w') => k a w'
    | (Raises e, w') => (Raises e, w')
    | (OutOfFuel, w') => (OutOfFuel, w')
    end.

(** [try: m except Exception as e: handler e]: an exception that is not
    an instance of [Exception] passes through. *)
Definition try_except {A : Type} (m : M A) (handler : Error -> M A) : M A :=
  fun w =>
    match m w with
    | (Raises e, w') =>
        if is_exception e then handler e w' else (Raises e, w')
    | other => other
    end.

Definition lift {A : Type} (r : Exc A) : M A :=
  match r with
  | Ok a => ret a
  | Raise e => raise (Key e)
  end.

Notation "'do' x <- m ; k" := (bind m (fun x => k))
  (at level 10, x name, m at level 100, k at level 200).

(** An asynchronous generator read to its end: the chunks it yields
    before it returns or raises. *)
Definition G (A : Type) : Type := World -> (list string * Outcome A) * World.

Definition gret {A : Type} (a : A) : G A := fun w => (([], Returns a), w).

Definition gbind {A B : Type} (m : G A) (k : A -> G B) : G B :=
  fun w =>
    match m w with
    | ((chunks, Returns a), w') =>
        let '((chunks', outcome), w'') := k a w' in
        ((chunks ++ chunks', outcome), w'')
    | ((chunks, Raises e), w') => ((chunks, Raises e), w')
    | ((chunks, OutOfFuel), w') => ((chunks, OutOfFuel), w')
    end.

(** [yield chunk] *)
Definition yield (chunk : string) : G unit :=
  fun w => (([chunk], Returns tt), w).

(** [await m] inside a generator. *)
Definition await {A : Type} (m : M A) : G A :=
  fun w => let '(outcome, w') := m w in (([], outcome), w').

(** [try: m except Exception as e: handler e] inside a generator: what
    was yielded before the exception stays yielded. *)
Definition gtry (m : G unit) (handler : Error -> G unit) : G unit :=
  fun w =>
    match m w with
    | ((chunks, Raises e), w') =>
        if is_exception e then
          let '((chunks', outcome), w'') := handler e w' in
          ((chunks ++ chunks', outcome), w'')
        else ((chunks, Raises e), w')
    | other => other
    end.

(** [for x in xs: body x] *)
Fixpoint for_each {X : Type} (xs : list X) (body : X -> G unit) : G unit :=
  match xs with
  | [] => gret tt
  | x :: rest => gbind (body x) (fun _ => for_each rest body)
  end.

(** [async for chunk in response: body chunk]: the iteration raises where
    the stream breaks. *)
Fixpoint async_for (response : AsyncStream)
    (body : list (option string) -> G unit) : G unit :=
  match response with
  | [] => gret tt
  | Chunk deltas :: rest => gbind (body deltas) (fun _ => async_for rest body)
  | Broken e :: _ => fun w => (([], Raises (Upstream e)), w)
  end.

(** [time.time()]: the reading is named by its rank. *)
Definition time_time : M nat :=
  fun w => (Returns (clock w), {| sent := sent w; clock := S (clock w) |}).

(** The instance: its clients are built or not, and the flag. *)
Record AzureOpenAIClient := {
  async_client : bool;
  sync_client : bool;
  _initialized : bool
}.

(** [AzureOpenAIClient.__init__] and the module-level [azure_client]. *)
Definition azure_client : AzureOpenAIClient :=
  {| async_client := false; sync_client := false; _initialized := false |}.

(** [AzureOpenAIClient.initialize].  [endpoint] and [api_key] are the two
    settings it tests; [async_built] and [sync_built] tell whether the
    constructors of the SDK return or raise. *)
Definition initialize (endpoint api_key : string)
    (async_built sync_built : bool) (self : AzureOpenAIClient)
    : AzureOpenAIClient :=
  if negb (truthy_str endpoint) || negb (truthy_str api_key) then
    {| async_client := async_client self; sync_client := sync_client self;
       _initialized := false |}
  else if negb async_built then
    {| async_client := async_client self; sync_client := sync_client self;
       _initialized := false |}
  else if negb sync_built then
    {| async_client := true; sync_client := sync_client self;
       _initialized := false |}
  else
    {| async_client := true; sync_client := true; _initialized := true |}.

(** [s.split()]: the maximal runs of characters that are not white space. *)
Fixpoint split (s : string) : list string :=
  match s with
  | EmptyString => []
  | String c s' =>
      if Unicode.isspace c then split s'
      else
        match s' with
        | EmptyString => [String c EmptyString]
        | String c' _ =>
            if Unicode.isspace c' then String c EmptyString :: split s'
            else
              match split s' with
              | word :: words => String c word :: words
              | [] => [String c EmptyString]
              end
        end
  end.

Section Client.

Variable settings : Config.Settings.

(** The service: what the awaited [create] does for a request, after the
    requests in the first argument; [inl] is the exception that comes out
    of it. *)
Variable completions_create :
  list Request -> Request -> ServiceException + ChatCompletion.
Variable completions_stream :
  list Request -> Request -> ServiceException + AsyncStream.

(** The two texts of [mock_responses], functions of the user message.
    They are f-strings; the second holds code points above U+00FF, which
    a [string] here cannot, so both are left as parameters. *)
Variable gpt4_mock_text : string -> string.
Variable turbo_mock_text : string -> string.

(** [await self.async_client.chat.completions.create(...)], without
    [stream] and with it. *)
Definition create (request : Request) : M ChatCompletion :=
  fun w =>
    let w' := {| sent := sent w ++ [request]; clock := clock w |} in
    match completions_create (sent w) request with
    | inl e => (Raises (Upstream e), w')
    | inr response => (Returns response, w')
    end.

Definition create_stream (request : Request) : M AsyncStream :=
  fun w =>
    let w' := {| sent := sent w ++ [request]; clock := clock w |} in
    match completions_stream (sent w) request with
    | inl e => (Raises (Upstream e), w')
    | inr response => (Returns response, w')
    end.

(** [MODEL_CONFIGS.get(model_id, MODEL_CONFIGS["gpt-35-turbo"])], lines 68
    and 122. *)
Definition model_config_of (model_id : string) : Exc Config.ModelConfig :=
  fallback ← getitem (Config.MODEL_CONFIGS settings) "gpt-35-turbo";
  mret (default fallback (Config.MODEL_CONFIGS settings !! model_id)).

(** [AzureOpenAIClient._mock_response] *)
Definition _mock_response (self : AzureOpenAIClient)
    (messages : list Message) (model_id : string) : M Reply :=
  let user_message :=
    match last messages with
    | Some message => content message
    | None => "Hello"
    end in
  let mock_responses : gmap string string :=
    {[ "gpt-4" := gpt4_mock_text user_message;
       "gpt-35-turbo" := turbo_mock_text user_message ]} in
  do content <- lift (fallback ← getitem mock_responses "gpt-35-turbo";
                      mret (default fallback (mock_responses !! model_id)));
  ret (Completed (Some content) model_id (Str.len content / 4)
         (Literal (5 # 10)) "stop" true).

(** [AzureOpenAIClient.chat_completion].  The call to itself is the
    fallback; [fuel] bounds the depth of such calls.  [create] returns a
    stream when [stream] is true and a completion when it is not, so the
    call is written in each branch of [if stream]. *)
Fixpoint chat_completion_fuel (fuel : nat) (self : AzureOpenAIClient)
    (messages : list Message) (model_id : string) (max_tokens : Z)
    (temperature : Q) (stream : bool) {struct fuel} : M Reply :=
  match fuel with
  | O => fun w => (OutOfFuel, w)
  | S fuel' =>
      do model_config <- lift (model_config_of model_id);
      let deployment_name := Config.deployment_name model_config in
      if negb (_initialized self) then _mock_response self messages model_id
      else
        do start_time <- time_time;
        try_except
          (let request :=
             {| model := deployment_name;
                messages := messages;
                max_tokens :=
                  Z.min max_tokens (Config.max_tokens model_config);
                temperature := temperature;
                stream := stream |} in
           if stream then
             do response <- create_stream request;
             ret (Streaming response model_id)
           else
             do response <- create request;
             do end_time <- time_time;
             match choices response with
             | [] => raise IndexError
             | first :: _ =>
                 ret (Completed (message_content first) model_id
                        (match usage response with
                         | Some total_tokens => total_tokens
                         | None => 0
                         end)
                        (Elapsed start_time end_time)
                        (finish_reason first) false)
             end)
          (fun e =>
             if String.eqb model_id "gpt-4" then
               chat_completion_fuel fuel' self messages "gpt-35-turbo"
                 max_tokens temperature stream
             else raise e)
  end.

(** Two levels are all the fallback needs: see [chat_completion_depth]. *)
Definition chat_completion := chat_completion_fuel 2.

(** [AzureOpenAIClient._mock_stream_response] *)
Definition _mock_stream_response (self : AzureOpenAIClient)
    (messages : list Message) (model_id : string) : G unit :=
  gbind (await (_mock_response self messages model_id)) (fun response =>
  match response with
  | Completed (Some content) _ _ _ _ _ =>
      let words := split content in
      for_each words (fun word => yield (word ++ " ")%string)
  | Completed None _ _ _ _ _ => await (raise AttributeError)
  | Streaming _ _ => await (raise (Key (KeyError "content")))
  end).

(** [AzureOpenAIClient.chat_completion_stream].  In mock mode every chunk
    of the inner generator is yielded again, in its order. *)
Definition chat_completion_stream (self : AzureOpenAIClient)
    (messages : list Message) (model_id : string) (max_tokens : Z)
    (temperature : Q) : G unit :=
  gbind (await (lift (model_config_of model_id))) (fun model_config =>
  let deployment_name := Config.deployment_name model_config in
  if negb (_initialized self) then
    _mock_stream_response self messages model_id
  else
    gtry
      (gbind
         (await
            (create_stream
               {| model := deployment_name;
                  messages := messages;
                  max_tokens :=
                    Z.min max_tokens (Config.max_tokens model_config);
                  temperature := temperature;
                  stream := true |}))
         (fun response =>
            async_for response (fun deltas =>
              match deltas with
              | Some text :: _ =>
                  if truthy_str text then yield text else gret tt
              | _ => gret tt
              end)))
      (fun e => yield ("Error: " ++ str e)%string)).

End Client.

End Azure.

(** ** backend/app/services.py: [SuggestionService.generate_suggestions]

    The database session is outside the program: the world records the
    calls made on it, and how many identifiers and clock readings were
    drawn.  What [uuid4] draws and whether [commit] raises are parameters. *)

Module Services.

(** The row [Suggestion(...)] is built with; [created_at] is the rank of
    the reading of [datetime.utcnow()]. *)
Record Suggestion := {
  id : string;
  message_id : string;
  suggestion_text : string;
  category : string;
  created_at : nat
}.

Inductive DbCall :=
| Add (row : Suggestion)
| Commit.

Record World := { calls : list DbCall; uuids : nat; clock : nat }.

Section Suggestions.

(** [str(uuid.uuid4())], by rank of the draw. *)
Variable uuid4 : nat -> string.

(** [await db.commit()] after the calls so far: [Some] is the [str] of the
    exception it raises. *)
Variable commit : list DbCall -> option string.

(** Lines 367-375: the loop over [suggestions[:3]]. *)
Fixpoint add_suggestions (message_id : string) (texts : list string)
    (w : World) : World :=
  match texts with
  | [] => w
  | suggestion_text :: rest =>
      let suggestion :=
        {| id := uuid4 (uuids w);
           message_id := message_id;
           suggestion_text := suggestion_text;
           category := "follow_up";
           created_at := clock w |} in
      add_suggestions message_id rest
        {| calls := calls w ++ [Add suggestion];
           uuids := S (uuids w);
           clock := S (clock w) |}
  end.

(** Lines 347-364: the list before it is cut. *)
Definition suggestions_for (content : string) : list string :=
  let suggestions := [] in
  let content_lower := Str.lower content in
  let suggestions :=
    if Str.contains content_lower "code" || Str.contains content "```" then
      (suggestions ++ ["Can you explain this code step by step?"])
        ++ ["How can I optimize this code?"]
    else suggestions in
  let suggestions :=
    if Str.contains content_lower "error"
       || Str.contains content_lower "exception" then
      (suggestions ++ ["What causes this error?"])
        ++ ["How can I prevent this in the future?"]
    else suggestions in
  if negb (truthy_list suggestions) then
    [ "Tell me more about this topic"; "Can you provide an example?";
      "What are the best practices?" ]
  else suggestions.

(** [SuggestionService.generate_suggestions]: the list it returns, or
    [inl] with the exception of [commit]. *)
Definition generate_suggestions (message_id content : string) (w : World)
    : (string + list string) * World :=
  let suggestions := suggestions_for content in
  let w := add_suggestions message_id (firstn 3 suggestions) w in
  let w' := {| calls := calls w ++ [Commit];
               uuids := uuids w; clock := clock w |} in
  match commit (calls w) with
  | Some message => (inl message, w')
  | None => (inr (firstn 3 suggestions), w')
  end.

End Suggestions.

End Services.

(** ** The objects of a run

    [analyze_query] works by side effects: it builds a dictionary and a
    list, assigns to the items of the one and appends to the other, and
    reads the lists of keywords through the instance.  Here these objects
    live in a heap, a reference is an address, and the method is a run
    over the heap, so that what a call leaves behind is there for the next
    call to find.  The lists a comprehension builds never leave the call
    and are plain lists.

    The heap is all the state a run has.  The method reads no clock and
    draws no random number: what it calls is [len], [str.lower],
    [str.strip], [str.count], [in], [str.join] and [re.search], each a
    function of its arguments ([re] keeps the patterns it has compiled in
    a cache of its own, which does not change what [re.search] returns). *)

Module Runtime.

Inductive value :=
| Int (z : Z)
| Num (q : Q)
| Str (s : string)
| Bool (b : bool)
| NoneValue
| Ref (address : nat).

Inductive object :=
| List (items : list value)
| Dict (entries : list (string * value))
| Instance (attributes : list (string * value)).

(** A reference that leads nowhere cannot be made in Python; [Dangling]
    is what a run over a heap with one gives. *)
Inductive Error :=
| KeyError (key : string)
| TypeError
| AttributeError (name : string)
| Dangling.

(** A run takes the heap to a result or an exception, and a heap. *)
Definition Run (A : Type) : Type := list object -> (Error + A) * list object.

Definition ret {A : Type} (a : A) : Run A := fun heap => (inr a, heap).

Definition raise {A : Type} (e : Error) : Run A := fun heap => (inl e, heap).

Definition bind {A B : Type} (m : Run A) (k : A -> Run B) : Run B :=
  fun heap =>
    match m heap with
    | (inr a, heap') => k a heap'
    | (inl e, heap') => (inl e, heap')
    end.

Notation "'do' x <- m ; k" := (bind m (fun x => k))
  (at level 10, x name, m at level 100, k at level 200).

(** A new object, at the first free address. *)
Definition alloc (o : object) : Run nat :=
  fun heap => (inr (length heap), heap ++ [o]).

Definition load (v : value) : Run object :=
  fun heap =>
    match v with
    | Ref address =>
        match heap !! address with
        | Some o => (inr o, heap)
        | None => (inl Dangling, heap)
        end
    | _ => (inl TypeError, heap)
    end.

Definition store (address : nat) (o : object) : Run unit :=
  fun heap => (inr tt, <[address := o]> heap).

(** A dictionary keeps its keys in the order of their first assignment. *)
Fixpoint lookup_key (key : string) (entries : list (string * value))
    : option value :=
  match entries with
  | [] => None
  | (k, v) :: rest => if String.eqb k key then Some v else lookup_key key rest
  end.

Fixpoint store_key (key : string) (v : value)
    (entries : list (string * value)) : list (string * value) :=
  match entries with
  | [] => [(key, v)]
  | (k, v0) :: rest =>
      if String.eqb k key then (k, v) :: rest
      else (k, v0) :: store_key key v rest
  end.

(** [d[key]] *)
Definition getitem (d : value) (key : string) : Run value :=
  do o <- load d;
  match o with
  | Dict entries =>
      match lookup_key key entries with
      | Some v => ret v
      | None => raise (KeyError key)
      end
  | _ => raise TypeError
  end.

(** [d[key] = v]: the dictionary itself changes. *)
Definition setitem (d : value) (key : string) (v : value) : Run unit :=
  do o <- load d;
  match o, d with
  | Dict entries, Ref address => store address (Dict (store_key key v entries))
  | _, _ => raise TypeError
  end.

(** [l.append(v)]: the list itself changes. *)
Definition append (l : value) (v : value) : Run unit :=
  do o <- load l;
  match o, l with
  | List items, Ref address => store address (List (items ++ [v]))
  | _, _ => raise (AttributeError "append")
  end.

(** [self.name] *)
Definition getattr (self : value) (name : string) : Run value :=
  do o <- load self;
  match o with
  | Instance attributes =>
      match lookup_key name attributes with
      | Some v => ret v
      | None => raise (AttributeError name)
      end
  | _ => raise (AttributeError name)
  end.

(** The elements [for x in v] goes through: those of a list, the keys of
    a dictionary. *)
Definition elements (v : value) : Run (list value) :=
  do o <- load v;
  match o with
  | List items => ret items
  | Dict entries => ret (map (fun entry => Str (fst entry)) entries)
  | Instance _ => raise TypeError
  end.

Fixpoint all_strings (vs : list value) : option (list string) :=
  match vs with
  | [] => Some []
  | Str s :: rest =>
      match all_strings rest with
      | Some ss => Some (s :: ss)
      | None => None
      end
  | _ :: _ => None
  end.

(** The elements of [v] as the left operands of [in query_lower]: each
    has to be a string. *)
Definition keywords (v : value) : Run (list string) :=
  do vs <- elements v;
  match all_strings vs with
  | Some ss => ret ss
  | None => raise TypeError
  end.

(** An operand of [+]. *)
Definition as_int (v : value) : Run Z :=
  match v with
  | Int z => ret z
  | Bool b => ret (if b then 1 else 0)
  | _ => raise TypeError
  end.

(** [analysis[key] += n; analysis["factors"].append(factor)], the two
    statements of every branch that scores. *)
Definition score (analysis : value) (key : string) (n : Z) (factor : string)
    : Run unit :=
  do current <- getitem analysis key;
  do current <- as_int current;
  do u <- setitem analysis key (Int (current + n));
  do factors <- getitem analysis "factors";
  append factors (Str factor).

(** Lines 30-40. *)
Definition length_block (analysis : value) (query : string) : Run unit :=
  let query_length := Str.len query in
  if query_length >? 1000 then
    do u <- setitem analysis "length_score" (Int 3);
    do factors <- getitem analysis "factors";
    append factors (Str "Very long query (>1000 chars)")
  else if query_length >? 500 then
    do u <- setitem analysis "length_score" (Int 2);
    do factors <- getitem analysis "factors";
    append factors (Str "Long query (>500 chars)")
  else if query_length >? 200 then
    do u <- setitem analysis "length_score" (Int 1);
    do factors <- getitem analysis "factors";
    append factors (Str "Medium length query")
  else ret tt.

(** Lines 45-61. *)
Definition keyword_block (self analysis : value) (query_lower : string)
    : Run unit :=
  do lexicon <- getattr self "complexity_keywords";
  do high <- getitem lexicon "high";
  do high <- keywords high;
  let high_matches :=
    List.filter (fun kw => Str.contains query_lower kw) high in
  do u <- (if truthy_list high_matches then
             score analysis "keyword_score" 2
               ("High complexity keywords: "
                ++ Str.join ", " (firstn 3 high_matches))%string
           else ret tt);
  do lexicon <- getattr self "complexity_keywords";
  do medium <- getitem lexicon "medium";
  do medium <- keywords medium;
  let medium_matches :=
    List.filter (fun kw => Str.contains query_lower kw) medium in
  do u <- (if truthy_list medium_matches then
             score analysis "keyword_score" 1
               "Medium complexity keywords detected"
           else ret tt);
  do lexicon <- getattr self "complexity_keywords";
  do low <- getitem lexicon "low";
  do low <- elements low;
  let low_matches :=
    List.filter (fun kw => match kw with
                           | Str kw => String.eqb (Str.strip query_lower) kw
                           | _ => false
                           end) low in
  if truthy_list low_matches then
    do u <- setitem analysis "keyword_score" (Int 0);
    do factors <- getitem analysis "factors";
    append factors (Str "Simple greeting/response")
  else ret tt.

(** Lines 63-82. *)
Definition structure_block (analysis : value) (query query_lower : string)
    : Run unit :=
  do u <- (if existsb (fun pattern => Re.search pattern query) code_patterns
           then score analysis "structure_score" 2
                  "Contains code or technical content"
           else ret tt);
  let question_words := Str.count_char query_lower "?" in
  do u <- (if question_words >? 2
           then score analysis "structure_score" 1
                  "Multiple questions detected"
           else ret tt);
  if Re.search numbered_pattern query
  then score analysis "structure_score" 1 "Structured list/steps detected"
  else ret tt.

(** [QueryOrchestrator.analyze_query], as a run: the list of factors and
    the dictionary are new objects of each call. *)
Definition analyze_query (self : value) (query : string) : Run value :=
  do factors <- alloc (List []);
  do analysis <-
    alloc (Dict [ ("length_score", Int 0); ("keyword_score", Int 0);
                  ("structure_score", Int 0); ("total_score", Int 0);
                  ("factors", Ref factors);
                  ("recommended_model", NoneValue) ]);
  let analysis := Ref analysis in
  do u <- length_block analysis query;
  let query_lower := Str.lower query in
  do u <- keyword_block self analysis query_lower;
  do u <- structure_block analysis query query_lower;
  do length_score <- getitem analysis "length_score";
  do length_score <- as_int length_score;
  do keyword_score <- getitem analysis "keyword_score";
  do keyword_score <- as_int keyword_score;
  do structure_score <- getitem analysis "structure_score";
  do structure_score <- as_int structure_score;
  do u <- setitem analysis "total_score"
            (Int (length_score + keyword_score + structure_score));
  ret analysis.

(** One configuration of [MODEL_CONFIGS] as a dictionary. *)
Definition config_entries (config : Config.ModelConfig) (capabilities : nat)
    : list (string * value) :=
  [ ("deployment_name", Str (Config.deployment_name config));
    ("display_name", Str (Config.display_name config));
    ("description", Str (Config.description config));
    ("max_tokens", Int (Config.max_tokens config));
    ("capabilities", Ref capabilities);
    ("complexity_threshold", Int (Config.complexity_threshold config));
    ("cost_per_1k_tokens", Num (Config.cost_per_1k_tokens config)) ].

(** The objects the import of config.py and orchestrator.py builds, in
    the order of their creation: the two registries, then the instance.
    The result is the module-level [orchestrator]. *)
Definition boot (settings : Config.Settings) : Run value :=
  let registry := Config.MODEL_CONFIGS settings in
  do models <-
    (fix build (ids : list string) (built : list (string * value))
       : Run value :=
       match ids with
       | [] => do d <- alloc (Dict built); ret (Ref d)
       | model_id :: rest =>
           match registry !! model_id with
           | Some config =>
               do capabilities <-
                 alloc (List (map Str (Config.capabilities config)));
               do entry <- alloc (Dict (config_entries config capabilities));
               build rest (built ++ [(model_id, Ref entry)])
           | None => build rest built
           end
       end) MODEL_CONFIGS_order [];
  do lexicon <-
    (fix build (tags : list string) (built : list (string * value))
       : Run value :=
       match tags with
       | [] => do d <- alloc (Dict built); ret (Ref d)
       | tag :: rest =>
           match Config.COMPLEXITY_KEYWORDS !! tag with
           | Some keywords =>
               do l <- alloc (List (map Str keywords));
               build rest (built ++ [(tag, Ref l)])
           | None => build rest built
           end
       end) ["high"; "medium"; "low"] [];
  do orchestrator <-
    alloc (Instance [ ("models", models); ("complexity_keywords", lexicon) ]);
  ret (Ref orchestrator).

(** The analysis a reference leads to in a heap, with every key read. *)
Definition read_analysis (heap : list object) (analysis : value)
    : option Analysis :=
  match analysis with
  | Ref address =>
      match heap !! address with
      | Some (Dict entries) =>
          match lookup_key "length_score" entries,
                lookup_key "keyword_score" entries,
                lookup_key "structure_score" entries,
                lookup_key "total_score" entries,
                lookup_key "factors" entries with
          | Some (Int l), Some (Int k), Some (Int s), Some (Int t),
            Some (Ref factors) =>
              match heap !! factors with
              | Some (List items) =>
                  match all_strings items with
                  | Some fs =>
                      Some {| length_score := l; keyword_score := k;
                              structure_score := s; total_score := t;
                              factors := fs;
                              recommended_model :=
                                match lookup_key "recommended_model" entries
                                with
                                | Some (Str m) => Some m
                                | _ => None
                                end;
                              selection_reason :=
                                match lookup_key "selection_reason" entries
                                with
                                | Some (Str r) => Some r
                                | _ => None
                                end;
                              was_auto_selected :=
                                match lookup_key "was_auto_selected" entries
                                with
                                | Some (Bool b) => Some b
                                | _ => None
                                end |}
                  | None => None
                  end
              | _ => None
              end
          | _, _, _, _, _ => None
          end
      | _ => None
      end
  | _ => None
  end.

(** The lists of keywords a call on [self] would read, if [self] is an
    instance whose [complexity_keywords] is a dictionary of three lists
    of strings. *)
Definition read_keywords (heap : list object)
    (entries : list (string * value)) (tag : string) : option (list string) :=
  match lookup_key tag entries with
  | Some (Ref address) =>
      match heap !! address with
      | Some (List items) => all_strings items
      | _ => None
      end
  | _ => None
  end.

Definition read_lexicon (heap : list object) (self : value)
    : option (list string * list string * list string) :=
  match self with
  | Ref address =>
      match heap !! address with
      | Some (Instance attributes) =>
          match lookup_key "complexity_keywords" attributes with
          | Some (Ref lexicon) =>
              match heap !! lexicon with
              | Some (Dict entries) =>
                  match read_keywords heap entries "high",
                        read_keywords heap entries "medium",
                        read_keywords heap entries "low" with
                  | Some high, Some medium, Some low =>
                      Some (high, medium, low)
                  | _, _, _ => None
                  end
              | _ => None
              end
          | _ => None
          end
      | _ => None
      end
  | _ => None
  end.

End Runtime.


(** * Properties *)

(** The three factor strings of the length block. *)
Definition length_factors : list string :=
  [ "Very long query (>1000 chars)"; "Long query (>500 chars)";
    "Medium length query" ].

Definition is_length_factor (f : string) : bool :=
  existsb (String.eqb f) length_factors.

(** A block [extends] the factors of [a] into those of [a'] when it only
    appends, and appends no length factor. *)
Definition extends (a a' : Analysis) : Prop :=
  exists extra,
    factors a' = factors a ++ extra
    /\ List.filter is_length_factor extra = [].

Lemma extends_filter a a' :
  extends a a' ->
  List.filter is_length_factor (factors a')
  = List.filter is_length_factor (factors a).
Proof.
  intros (e & H & F). rewrite H, List.filter_app, F. apply app_nil_r.
Qed.

Lemma extends_In f a a' : extends a a' -> In f (factors a) -> In f (factors a').
Proof.
  intros (e & H & _) Hin. rewrite H. apply in_or_app. now left.
Qed.

(** A query of [n] characters, for the boundary cases. *)
Definition chars (n : nat) : string :=
  string_of_list_ascii (List.repeat "a"%char n).

(** The four scores of a result, for the worked examples. *)
Definition scores (r : Exc Analysis) : option (Z * Z * Z * Z) :=
  match r with
  | Ok a => Some (length_score a, keyword_score a, structure_score a,
                  total_score a)
  | Raise _ => None
  end.

(** Closes [extends a t] when [t] is [a] under a known sequence of
    assignments and appends. *)
Ltac solve_extends :=
  unfold extends; simpl;
  first
    [ exists []; split; [symmetry; apply app_nil_r | reflexivity]
    | eexists; split; [rewrite <- ?app_assoc; reflexivity | reflexivity] ].

(** ** What each block of [analyze_query] touches

    Each block reads and writes [analysis] only; the lemmas below say which
    keys a block leaves as they were and that [factors] only grows. *)

Section Blocks.

Variable self : QueryOrchestrator.

Lemma length_analysis_frame query a :
  keyword_score (length_analysis query a) = keyword_score a
  /\ structure_score (length_analysis query a) = structure_score a.
Proof.
  unfold length_analysis.
  destruct (Str.len query >? 1000); [now split|].
  destruct (Str.len query >? 500); [now split|].
  destruct (Str.len query >? 200); now split.
Qed.

(** Splits a successful run of the keyword block into its eight paths. *)
Ltac keyword_paths H :=
  unfold keyword_analysis, getitem in H;
  repeat match type of H with
    | context [complexity_keywords self !! ?k] =>
        destruct (complexity_keywords self !! k) eqn:?; [|discriminate H]
    end;
  cbn [mbind mret Exc_bind Exc_ret] in H;
  repeat match type of H with
    | context [truthy_list ?l] => destruct (truthy_list l) eqn:?
    end;
  injection H as <-.

Lemma keyword_analysis_frame query_lower a a' :
  keyword_analysis self query_lower a = Ok a' ->
  length_score a' = length_score a
  /\ structure_score a' = structure_score a
  /\ extends a a'.
Proof.
  intros H. keyword_paths H; (split; [reflexivity|split; [reflexivity|]]);
    solve_extends.
Qed.

Lemma keyword_analysis_range query_lower a a' :
  keyword_analysis self query_lower a = Ok a' ->
  keyword_score a = 0 ->
  0 <= keyword_score a' <= 3.
Proof.
  intros H H0. keyword_paths H; simpl; lia.
Qed.

(** The exact-match check, when it fires, has the last word on
    [keyword_score] and on [factors]. *)
Lemma keyword_analysis_low query_lower a a' low :
  keyword_analysis self query_lower a = Ok a' ->
  complexity_keywords self !! "low" = Some low ->
  In (Str.strip query_lower) low ->
  keyword_score a' = 0
  /\ exists before, factors a' = before ++ ["Simple greeting/response"].
Proof.
  intros H Hlow Hin.
  assert (Hm : truthy_list
            (List.filter (fun kw => String.eqb (Str.strip query_lower) kw)
               low) = true).
  { destruct (List.filter _ low) as [|x l] eqn:E; [|reflexivity].
    assert (Hx : In (Str.strip query_lower)
              (List.filter
                 (fun kw => String.eqb (Str.strip query_lower) kw) low)).
    { apply List.filter_In. split; [exact Hin | apply String.eqb_refl]. }
    rewrite E in Hx. destruct Hx. }
  unfold keyword_analysis, getitem in H. rewrite Hlow in H.
  repeat match type of H with
    | context [complexity_keywords self !! ?k] =>
        destruct (complexity_keywords self !! k) eqn:?; [|discriminate H]
    end.
  cbn [mbind mret Exc_bind Exc_ret] in H. rewrite Hm in H.
  injection H as <-. split; [reflexivity|]. eexists. reflexivity.
Qed.

Lemma keyword_analysis_total query_lower a high medium low :
  complexity_keywords self !! "high" = Some high ->
  complexity_keywords self !! "medium" = Some medium ->
  complexity_keywords self !! "low" = Some low ->
  exists a', keyword_analysis self query_lower a = Ok a'.
Proof.
  intros Hh Hm Hl. unfold keyword_analysis, getitem.
  rewrite Hh, Hm, Hl. eexists. reflexivity.
Qed.

Lemma structure_analysis_frame query query_lower a :
  length_score (structure_analysis query query_lower a) = length_score a
  /\ keyword_score (structure_analysis query query_lower a) = keyword_score a
  /\ extends a (structure_analysis query query_lower a).
Proof.
  unfold structure_analysis.
  destruct (existsb _ code_patterns);
    destruct (Str.count_char query_lower "?" >? 2);
    destruct (Re.search numbered_pattern query);
    (split; [reflexivity|split; [reflexivity|]]);
    solve_extends.
Qed.

End Blocks.

(** ** [analyze_query] as the composition of its blocks *)

Section Analyzer.

Variable self : QueryOrchestrator.

Lemma analyze_query_inv query a :
  analyze_query self query = Ok a ->
  exists a1,
    keyword_analysis self (Str.lower query)
      (length_analysis query initial_analysis) = Ok a1
    /\ a = (let s := structure_analysis query (Str.lower query) a1 in
            set_total_score
              (length_score s + keyword_score s + structure_score s) s).
Proof.
  unfold analyze_query. cbn [mbind mret Exc_bind Exc_ret].
  destruct (keyword_analysis self _ _) as [a1|e]; [|discriminate].
  intros [= <-]. exists a1. split; reflexivity.
Qed.

Lemma analyze_query_total query high medium low :
  complexity_keywords self !! "high" = Some high ->
  complexity_keywords self !! "medium" = Some medium ->
  complexity_keywords self !! "low" = Some low ->
  exists a, analyze_query self query = Ok a.
Proof.
  intros Hh Hm Hl.
  destruct (keyword_analysis_total self (Str.lower query)
              (length_analysis query initial_analysis) _ _ _ Hh Hm Hl)
    as [a1 H1].
  unfold analyze_query. cbn [mbind mret Exc_bind Exc_ret].
  rewrite H1. eexists. reflexivity.
Qed.

Lemma analyze_query_sum query a :
  analyze_query self query = Ok a ->
  total_score a = length_score a + keyword_score a + structure_score a.
Proof.
  intros H. apply analyze_query_inv in H as (a1 & _ & ->). reflexivity.
Qed.

Lemma analyze_query_keyword_range query a :
  analyze_query self query = Ok a -> 0 <= keyword_score a <= 3.
Proof.
  intros H. apply analyze_query_inv in H as (a1 & Hk & ->).
  cbn [keyword_score set_total_score].
  destruct (structure_analysis_frame query (Str.lower query) a1)
    as (_ & -> & _).
  apply (keyword_analysis_range self _ _ _ Hk).
  destruct (length_analysis_frame query initial_analysis) as (-> & _).
  reflexivity.
Qed.

Lemma analyze_query_low query a low :
  analyze_query self query = Ok a ->
  complexity_keywords self !! "low" = Some low ->
  In (Str.strip (Str.lower query)) low ->
  keyword_score a = 0 /\ In "Simple greeting/response" (factors a).
Proof.
  intros H Hlow Hin. apply analyze_query_inv in H as (a1 & Hk & ->).
  cbn [keyword_score factors set_total_score].
  destruct (structure_analysis_frame query (Str.lower query) a1)
    as (_ & -> & Hext).
  destruct (keyword_analysis_low self _ _ _ _ Hk Hlow Hin)
    as (H0 & before & Hf).
  split; [exact H0|].
  apply (extends_In _ _ _ Hext). rewrite Hf.
  apply in_or_app. right. now left.
Qed.

(** The length tier of the result, and the length factors among its
    factors, are those the length block leaves. *)
Lemma analyze_query_length query a :
  analyze_query self query = Ok a ->
  length_score a = length_score (length_analysis query initial_analysis)
  /\ List.filter is_length_factor (factors a)
     = factors (length_analysis query initial_analysis).
Proof.
  intros H. apply analyze_query_inv in H as (a1 & Hk & ->).
  cbn [length_score factors set_total_score].
  destruct (structure_analysis_frame query (Str.lower query) a1)
    as (-> & _ & Hext).
  destruct (keyword_analysis_frame self _ _ _ Hk) as (-> & _ & Hext1).
  split; [reflexivity|].
  rewrite (extends_filter _ _ Hext), (extends_filter _ _ Hext1).
  unfold length_analysis.
  destruct (Str.len query >? 1000); [reflexivity|].
  destruct (Str.len query >? 500); [reflexivity|].
  destruct (Str.len query >? 200); reflexivity.
Qed.

End Analyzer.

(** ** The module-level instance *)

(** ** The module-level instance *)

Section Instance.

Variable settings : Config.Settings.

Lemma registry_keys (model_id : string) :
  is_Some (models (orchestrator settings) !! model_id)
  <-> model_id = "gpt-4" \/ model_id = "gpt-35-turbo".
Proof.
  unfold orchestrator, __init__, Config.MODEL_CONFIGS. cbn [models].
  rewrite lookup_insert. case_decide as H1.
  - split; [intros _; left; now symmetry | intros _; now eexists].
  - rewrite lookup_singleton. case_decide as H2.
    + split; [intros _; right; now symmetry | intros _; now eexists].
    + split.
      * intros [x Hx]. discriminate Hx.
      * intros [->| ->]; [now destruct H1 | now destruct H2].
Qed.

Lemma analyze_query_returns query :
  exists a, analyze_query (orchestrator settings) query = Ok a.
Proof.
  eapply analyze_query_total; reflexivity.
Qed.

Lemma lexicon_low :
  complexity_keywords (orchestrator settings) !! "low"
  = Some ["hi"; "hello"; "thanks"; "yes"; "no"; "ok"; "bye"].
Proof. reflexivity. Qed.

(** The guard of [select_model], in terms of the registry. *)
Lemma guard_true preferred :
  is_Some (models (orchestrator settings) !! preferred) ->
  truthy_str preferred
  && contains_key preferred (models (orchestrator settings)) = true.
Proof.
  intros H. unfold contains_key. rewrite bool_decide_eq_true_2 by exact H.
  apply registry_keys in H as [-> | ->]; reflexivity.
Qed.

Lemma guard_false preferred :
  models (orchestrator settings) !! preferred = None ->
  truthy_str preferred
  && contains_key preferred (models (orchestrator settings)) = false.
Proof.
  intros H. unfold contains_key. rewrite H.
  rewrite bool_decide_eq_false_2; [apply andb_false_r|].
  intros [x Hx]. discriminate Hx.
Qed.

(** Lines 112-131 run whenever the guard of line 105 fails. *)
Lemma select_model_automatic query preferred_model :
  (forall p, preferred_model = Some p ->
             models (orchestrator settings) !! p = None) ->
  select_model (orchestrator settings) query preferred_model
  = select_model (orchestrator settings) query None.
Proof.
  intros H. destruct preferred_model as [p|]; [|reflexivity].
  unfold select_model. rewrite (guard_false p (H p eq_refl)). reflexivity.
Qed.

(** Both branches of [select_model] return the analysis of
    [analyze_query] with the three selection keys set, and a model id
    that is a key of the registry. *)
Lemma select_model_result query preferred_model :
  exists a selected reason auto,
    analyze_query (orchestrator settings) query = Ok a
    /\ select_model (orchestrator settings) query preferred_model
       = Ok (selected,
             set_was_auto_selected auto
               (set_recommended_model selected
                  (set_selection_reason reason a)))
    /\ is_Some (models (orchestrator settings) !! selected).
Proof.
  destruct (analyze_query_returns query) as [a Ha]. exists a.
  assert (Hauto : exists selected reason auto,
             select_model (orchestrator settings) query None
             = Ok (selected,
                   set_was_auto_selected auto
                     (set_recommended_model selected
                        (set_selection_reason reason a)))
             /\ is_Some (models (orchestrator settings) !! selected)).
  { unfold select_model. rewrite Ha. cbn [mbind mret Exc_bind Exc_ret].
    destruct (total_score a >=? 4); [|destruct (total_score a >=? 2)];
      do 3 eexists; (split; [reflexivity|]);
      apply registry_keys; auto. }
  destruct preferred_model as [p|].
  - destruct (truthy_str p
              && contains_key p (models (orchestrator settings))) eqn:G.
    + exists p. unfold select_model. rewrite G, Ha.
      cbn [mbind mret Exc_bind Exc_ret].
      do 2 eexists. split; [exact eq_refl|]. split; [reflexivity|].
      apply andb_true_iff in G as [_ G].
      exact (bool_decide_eq_true_1 _ G).
    + destruct Hauto as (m & r & b & Hs & Hk).
      exists m, r, b. split; [exact Ha|]. split; [|exact Hk].
      unfold select_model in *. rewrite G. exact Hs.
  - destruct Hauto as (m & r & b & Hs & Hk).
    exists m, r, b. split; [exact Ha|]. split; [exact Hs|exact Hk].
Qed.

End Instance.

(** ** The orchestrator on the inputs the tests would use *)

Section Examples.

Local Abbreviation orch := (orchestrator Config.default_settings).

Example analyze_empty :
  analyze_query orch ""
  = Ok {| length_score := 0; keyword_score := 0; structure_score := 0;
          total_score := 0; factors := []; recommended_model := None;
          selection_reason := None; was_auto_selected := None |}.
Proof. vm_compute. reflexivity. Qed.

Example analyze_length_boundaries :
  map (fun n => scores (analyze_query orch (chars n)))
      [200; 201; 500; 501; 1000; 1001]%nat
  = [ Some (0, 0, 0, 0); Some (1, 0, 0, 1); Some (1, 0, 0, 1);
      Some (2, 0, 0, 2); Some (2, 0, 0, 2); Some (3, 0, 0, 3) ].
Proof. vm_compute. reflexivity. Qed.

Example analyze_two_high_keywords :
  analyze_query orch "analyze this system and compare it to the alternative"
  = Ok {| length_score := 0; keyword_score := 2; structure_score := 0;
          total_score := 2;
          factors := ["High complexity keywords: analyze, compare"];
          recommended_model := None;
          selection_reason := None; was_auto_selected := None |}.
Proof. vm_compute. reflexivity. Qed.

Example analyze_structure :
  analyze_query orch "Why? How? When? 1. const x = () => 1"
  = Ok {| length_score := 0; keyword_score := 0; structure_score := 4;
          total_score := 4;
          factors := ["Contains code or technical content";
                      "Multiple questions detected";
                      "Structured list/steps detected"];
          recommended_model := None;
          selection_reason := None; was_auto_selected := None |}.
Proof. vm_compute. reflexivity. Qed.

Example select_by_score :
  map (fun q => match select_model orch q None with
                | Ok (m, a) => Some (total_score a, m, selection_reason a)
                | Raise _ => None
                end)
      [ "summarize"; "analyze"; "analyze and summarize";
        "analyze def f" ]
  = [ Some (1, "gpt-35-turbo",
            Some "Simple query - using fast GPT-3.5 Turbo");
      Some (2, "gpt-35-turbo",
            Some "Medium complexity - GPT-3.5 Turbo is efficient");
      Some (3, "gpt-35-turbo",
            Some "Medium complexity - GPT-3.5 Turbo is efficient");
      Some (4, "gpt-4",
            Some "High complexity query - using GPT-4 for best results") ].
Proof. vm_compute. reflexivity. Qed.

(** A lexicon without its "high" list: the first lookup raises. *)
Example analyze_missing_key :
  analyze_query {| models := ∅; complexity_keywords := ∅ |} "hello"
  = Raise (KeyError "high").
Proof. vm_compute. reflexivity. Qed.

End Examples.

(** * The claims *)



(** C2. When the preferred model is a key of the registry, [select_model]
    returns it, with an analysis whose [recommended_model] is the preferred
    id, whose [selection_reason] is "User specified model" and whose
    [was_auto_selected] is false, whatever the score; the scores and factors
    are those [analyze_query] computes for the query. *)
Theorem select_model_honours_valid_preference
    (settings : Config.Settings) (query preferred : string) :
  is_Some (models (orchestrator settings) !! preferred) ->
  exists a a',
    analyze_query (orchestrator settings) query = Ok a
    /\ select_model (orchestrator settings) query (Some preferred)
       = Ok (preferred, a')
    /\ recommended_model a' = Some preferred
    /\ selection_reason a' = Some "User specified model"
    /\ was_auto_selected a' = Some false
    /\ length_score a' = length_score a
    /\ keyword_score a' = keyword_score a
    /\ structure_score a' = structure_score a
    /\ total_score a' = total_score a
    /\ factors a' = factors a.
Proof.
  intros Hkey.
  destruct (analyze_query_returns settings query) as [a Ha].
  exists a. unfold select_model.
  rewrite (guard_true settings preferred Hkey), Ha.
  cbn [mbind mret Exc_bind Exc_ret].
  eexists. split; [reflexivity|]. split; [reflexivity|].
  repeat split.
Qed.

Lemma select_model_honours_valid_preference_witness :
  is_Some (models (orchestrator Config.default_settings) !! "gpt-4")
  /\ exists a a',
    analyze_query (orchestrator Config.default_settings) "hello" = Ok a
    /\ select_model (orchestrator Config.default_settings) "hello"
         (Some "gpt-4") = Ok ("gpt-4", a')
    /\ recommended_model a' = Some "gpt-4"
    /\ selection_reason a' = Some "User specified model"
    /\ was_auto_selected a' = Some false
    /\ length_score a' = length_score a
    /\ keyword_score a' = keyword_score a
    /\ structure_score a' = structure_score a
    /\ total_score a' = total_score a
    /\ factors a' = factors a.
Proof.
  split.
  - vm_compute. eexists. reflexivity.
  - apply (select_model_honours_valid_preference Config.default_settings
             "hello" "gpt-4").
    vm_compute. eexists. reflexivity.
Defined.

(** C3, as stated: [keyword_score] is always one of 0, 1, 2.  It is not:
    a query with a high keyword and a medium keyword gets 2 + 1. *)
Lemma keyword_score_exceeds_two :
  exists a,
    analyze_query (orchestrator Config.default_settings)
      "analyze and summarize" = Ok a
    /\ keyword_score a = 3
    /\ ~ In (keyword_score a) [0; 1; 2].
Proof.
  eexists. split; [vm_compute; reflexivity|]. split; [reflexivity|].
  cbn [keyword_score In]. lia.
Qed.

(** C3, amended. For every query, the [keyword_score] of [analyze_query] is
    one of 0, 1, 2, 3. *)
Theorem keyword_score_within_three (settings : Config.Settings) (query : string) :
  exists a,
    analyze_query (orchestrator settings) query = Ok a
    /\ In (keyword_score a) [0; 1; 2; 3].
Proof.
  destruct (analyze_query_returns settings query) as [a Ha].
  exists a. split; [exact Ha|].
  pose proof (analyze_query_keyword_range _ _ _ Ha) as Hr.
  cbn [In]. lia.
Qed.

(** C4. A preferred model that is not a key of the registry changes
    nothing: [select_model] returns what it returns with no preferred model,
    and that is a result, not an exception. *)
Theorem select_model_ignores_unknown_preference
    (settings : Config.Settings) (query preferred : string) :
  models (orchestrator settings) !! preferred = None ->
  select_model (orchestrator settings) query (Some preferred)
  = select_model (orchestrator settings) query None
  /\ exists selected a,
       select_model (orchestrator settings) query (Some preferred)
       = Ok (selected, a).
Proof.
  intros Hnone.
  assert (Hauto : select_model (orchestrator settings) query (Some preferred)
                  = select_model (orchestrator settings) query None).
  { apply select_model_automatic. intros p [= <-]. exact Hnone. }
  split; [exact Hauto|]. rewrite Hauto.
  destruct (analyze_query_returns settings query) as [a Ha].
  unfold select_model. rewrite Ha. cbn [mbind mret Exc_bind Exc_ret].
  destruct (total_score a >=? 4); [|destruct (total_score a >=? 2)];
    do 2 eexists; reflexivity.
Qed.

Lemma select_model_ignores_unknown_preference_witness :
  models (orchestrator Config.default_settings) !! "not-a-real-model" = None
  /\ select_model (orchestrator Config.default_settings)
       "def f(x): return x" (Some "not-a-real-model")
     = select_model (orchestrator Config.default_settings)
         "def f(x): return x" None
  /\ exists selected a,
       select_model (orchestrator Config.default_settings)
         "def f(x): return x" (Some "not-a-real-model")
       = Ok (selected, a).
Proof.
  split.
  - vm_compute. reflexivity.
  - apply (select_model_ignores_unknown_preference Config.default_settings
             "def f(x): return x" "not-a-real-model").
    vm_compute. reflexivity.
Defined.

(** C5. With [L] the number of characters of the query, [analyze_query]
    sets [length_score] by exclusive tiers, and the length factors among
    [factors] are exactly the one of the tier: above 1000, 3 and "Very long
    query (>1000 chars)"; above 500 up to 1000, 2 and "Long query (>500
    chars)"; above 200 up to 500, 1 and "Medium length query"; up to 200,
    0 and no length factor.  So 500 characters score 1 and 501 score 2. *)
Theorem length_score_tiers (settings : Config.Settings) (query : string) :
  exists a,
    analyze_query (orchestrator settings) query = Ok a
    /\ (Str.len query > 1000 ->
        length_score a = 3
        /\ List.filter is_length_factor (factors a)
           = ["Very long query (>1000 chars)"])
    /\ (500 < Str.len query <= 1000 ->
        length_score a = 2
        /\ List.filter is_length_factor (factors a)
           = ["Long query (>500 chars)"])
    /\ (200 < Str.len query <= 500 ->
        length_score a = 1
        /\ List.filter is_length_factor (factors a)
           = ["Medium length query"])
    /\ (Str.len query <= 200 ->
        length_score a = 0
        /\ List.filter is_length_factor (factors a) = [])
    /\ (Str.len query = 500 -> length_score a = 1)
    /\ (Str.len query = 501 -> length_score a = 2).
Proof.
  destruct (analyze_query_returns settings query) as [a Ha].
  exists a. split; [exact Ha|].
  destruct (analyze_query_length _ _ _ Ha) as (-> & ->).
  unfold length_analysis.
  destruct (Str.len query >? 1000) eqn:E1;
    [|destruct (Str.len query >? 500) eqn:E2;
      [|destruct (Str.len query >? 200) eqn:E3]];
    cbn [length_score factors set_length_score append_factor
         initial_analysis app];
    repeat split; intros; try reflexivity; lia.
Qed.

(** C6. When the lower-cased, stripped query is one of the "low" keywords,
    [keyword_score] is 0, whatever the two substring checks added before,
    and "Simple greeting/response" is among the factors. *)
Theorem greeting_resets_keyword_score
    (settings : Config.Settings) (query : string) :
  In (Str.strip (Str.lower query))
     ["hi"; "hello"; "thanks"; "yes"; "no"; "ok"; "bye"] ->
  exists a,
    analyze_query (orchestrator settings) query = Ok a
    /\ keyword_score a = 0
    /\ In "Simple greeting/response" (factors a).
Proof.
  intros Hlow.
  destruct (analyze_query_returns settings query) as [a Ha].
  exists a. split; [exact Ha|].
  exact (analyze_query_low _ _ _ _ Ha (lexicon_low settings) Hlow).
Qed.

Lemma greeting_resets_keyword_score_witness :
  In (Str.strip (Str.lower "  ok  "))
     ["hi"; "hello"; "thanks"; "yes"; "no"; "ok"; "bye"]
  /\ exists a,
    analyze_query (orchestrator Config.default_settings) "  ok  " = Ok a
    /\ keyword_score a = 0
    /\ In "Simple greeting/response" (factors a).
Proof.
  split.
  - vm_compute. do 5 right. left. reflexivity.
  - apply (greeting_resets_keyword_score Config.default_settings "  ok  ").
    vm_compute. do 5 right. left. reflexivity.
Defined.

(** C7. The [total_score] of [analyze_query] is the sum of the three
    component scores of the same analysis, and [select_model], which sets
    other keys, returns an analysis for which this still holds. *)
Theorem total_score_is_sum (settings : Config.Settings) (query : string) :
  exists a,
    analyze_query (orchestrator settings) query = Ok a
    /\ total_score a = length_score a + keyword_score a + structure_score a
    /\ forall preferred_model, exists selected a',
         select_model (orchestrator settings) query preferred_model
         = Ok (selected, a')
         /\ total_score a'
            = length_score a' + keyword_score a' + structure_score a'.
Proof.
  destruct (analyze_query_returns settings query) as [a Ha].
  exists a. split; [exact Ha|].
  pose proof (analyze_query_sum _ _ _ Ha) as Hsum.
  split; [exact Hsum|]. intros preferred_model.
  destruct (select_model_result settings query preferred_model)
    as (a0 & m & r & b & Ha0 & Hs & _).
  rewrite Ha in Ha0. injection Ha0 as <-.
  exists m. eexists. split; [exact Hs|]. exact Hsum.
Qed.

(** C9. Whatever the query and the preferred model (none, empty, unknown or
    known), the model id [select_model] returns is a key of the registry:
    "gpt-4" or "gpt-35-turbo". *)
Theorem selected_model_is_registered
    (settings : Config.Settings) (query : string)
    (preferred_model : option string) :
  exists selected a,
    select_model (orchestrator settings) query preferred_model
    = Ok (selected, a)
    /\ is_Some (Config.MODEL_CONFIGS settings !! selected)
    /\ (selected = "gpt-4" \/ selected = "gpt-35-turbo").
Proof.
  destruct (select_model_result settings query preferred_model)
    as (a & m & r & b & _ & Hs & Hk).
  exists m. eexists. split; [exact Hs|]. split; [exact Hk|].
  apply registry_keys in Hk. exact Hk.
Qed.

(** C10. The model id [select_model] returns is the [recommended_model]
    of the analysis it returns with it. *)
Theorem selected_model_is_recommended
    (settings : Config.Settings) (query : string)
    (preferred_model : option string) :
  exists selected a,
    select_model (orchestrator settings) query preferred_model
    = Ok (selected, a)
    /\ recommended_model a = Some selected.
Proof.
  destruct (select_model_result settings query preferred_model)
    as (a & m & r & b & _ & Hs & _).
  exists m. eexists. split; [exact Hs|]. reflexivity.
Qed.
(** ** Two runs of [analyze_query]

    The heap a call leaves: the heap it found, then the list of factors
    and the dictionary of the analysis it built. *)

Definition entries_of (a : Analysis) (factors_at : nat)
    : list (string * Runtime.value) :=
  [ ("length_score", Runtime.Int (length_score a));
    ("keyword_score", Runtime.Int (keyword_score a));
    ("structure_score", Runtime.Int (structure_score a));
    ("total_score", Runtime.Int (total_score a));
    ("factors", Runtime.Ref factors_at);
    ("recommended_model", Runtime.NoneValue) ].

Definition with_analysis (heap : list Runtime.object) (a : Analysis)
    : list Runtime.object :=
  heap ++ [ Runtime.List (map Runtime.Str (factors a));
            Runtime.Dict (entries_of a (length heap)) ].

(** The keys only [select_model] sets are not set. *)
Definition unselected (a : Analysis) : Prop :=
  recommended_model a = None
  /\ selection_reason a = None
  /\ was_auto_selected a = None.

(** The instance and its three lists of keywords, as they lie in a heap. *)
Definition lexicon_at (heap : list Runtime.object) (this : Runtime.value)
    (high medium low : list string) : Prop :=
  exists s attributes d entries h m l,
    this = Runtime.Ref s
    /\ heap !! s = Some (Runtime.Instance attributes)
    /\ Runtime.lookup_key "complexity_keywords" attributes
       = Some (Runtime.Ref d)
    /\ heap !! d = Some (Runtime.Dict entries)
    /\ Runtime.lookup_key "high" entries = Some (Runtime.Ref h)
    /\ heap !! h = Some (Runtime.List (map Runtime.Str high))
    /\ Runtime.lookup_key "medium" entries = Some (Runtime.Ref m)
    /\ heap !! m = Some (Runtime.List (map Runtime.Str medium))
    /\ Runtime.lookup_key "low" entries = Some (Runtime.Ref l)
    /\ heap !! l = Some (Runtime.List (map Runtime.Str low)).

Lemma bind_runs {A B : Type} (m : Runtime.Run A) (k : A -> Runtime.Run B)
    heap a heap' :
  m heap = (inr a, heap') -> Runtime.bind m k heap = k a heap'.
Proof. intros H. unfold Runtime.bind. rewrite H. reflexivity. Qed.

Lemma all_strings_map (ss : list string) :
  Runtime.all_strings (map Runtime.Str ss) = Some ss.
Proof.
  induction ss as [|s ss IH]; [reflexivity|].
  cbn [map Runtime.all_strings]. rewrite IH. reflexivity.
Qed.

Lemma all_strings_inv (vs : list Runtime.value) (ss : list string) :
  Runtime.all_strings vs = Some ss -> vs = map Runtime.Str ss.
Proof.
  revert ss. induction vs as [|v vs IH]; intros ss H.
  - injection H as <-. reflexivity.
  - cbn [Runtime.all_strings] in H. destruct v; try discriminate H.
    destruct (Runtime.all_strings vs) as [ss'|]; [|discriminate H].
    injection H as <-. cbn [map]. rewrite (IH ss' eq_refl). reflexivity.
Qed.

Lemma read_keywords_inv heap entries tag kws :
  Runtime.read_keywords heap entries tag = Some kws ->
  exists address,
    Runtime.lookup_key tag entries = Some (Runtime.Ref address)
    /\ heap !! address = Some (Runtime.List (map Runtime.Str kws)).
Proof.
  unfold Runtime.read_keywords. intros H.
  destruct (Runtime.lookup_key tag entries) as [[| | | | |address]|];
    try discriminate H.
  destruct (heap !! address) as [[items| |]|] eqn:Hitems;
    try discriminate H.
  apply all_strings_inv in H. subst items. exists address. now split.
Qed.

Lemma read_lexicon_inv heap this high medium low :
  Runtime.read_lexicon heap this = Some (high, medium, low) ->
  lexicon_at heap this high medium low.
Proof.
  unfold Runtime.read_lexicon. intros H.
  destruct this as [| | | | |s]; try discriminate H.
  destruct (heap !! s) as [[| |attributes]|] eqn:Hs; try discriminate H.
  destruct (Runtime.lookup_key "complexity_keywords" attributes)
    as [[| | | | |d]|] eqn:Hd; try discriminate H.
  destruct (heap !! d) as [[|entries|]|] eqn:Hes; try discriminate H.
  destruct (Runtime.read_keywords heap entries "high") as [high'|] eqn:Hh;
    [|discriminate H].
  destruct (Runtime.read_keywords heap entries "medium") as [medium'|] eqn:Hm;
    [|discriminate H].
  destruct (Runtime.read_keywords heap entries "low") as [low'|] eqn:Hl;
    [|discriminate H].
  injection H as -> -> ->.
  apply read_keywords_inv in Hh as (h & Hh & Hh').
  apply read_keywords_inv in Hm as (m & Hm & Hm').
  apply read_keywords_inv in Hl as (l & Hl & Hl').
  exists s, attributes, d, entries, h, m, l. repeat split; assumption.
Qed.

Lemma lexicon_at_app heap rest this high medium low :
  lexicon_at heap this high medium low ->
  lexicon_at (heap ++ rest) this high medium low.
Proof.
  intros (s & attributes & d & entries & h & m & l & -> & Hs & Hd & Hes
          & Hh & Hh' & Hm & Hm' & Hl & Hl').
  exists s, attributes, d, entries, h, m, l.
  repeat split; try assumption; apply lookup_app_l_Some; assumption.
Qed.

(** What the primitives do at an address that holds the right object. *)
Lemma getattr_runs heap s attributes name v :
  heap !! s = Some (Runtime.Instance attributes) ->
  Runtime.lookup_key name attributes = Some v ->
  Runtime.getattr (Runtime.Ref s) name heap = (inr v, heap).
Proof.
  intros Hs Hv. unfold Runtime.getattr, Runtime.bind, Runtime.load.
  rewrite Hs, Hv. reflexivity.
Qed.

Lemma getitem_runs heap d entries key v :
  heap !! d = Some (Runtime.Dict entries) ->
  Runtime.lookup_key key entries = Some v ->
  Runtime.getitem (Runtime.Ref d) key heap = (inr v, heap).
Proof.
  intros Hd Hv. unfold Runtime.getitem, Runtime.bind, Runtime.load.
  rewrite Hd, Hv. reflexivity.
Qed.

Lemma elements_runs heap l items :
  heap !! l = Some (Runtime.List items) ->
  Runtime.elements (Runtime.Ref l) heap = (inr items, heap).
Proof.
  intros Hl. unfold Runtime.elements, Runtime.bind, Runtime.load.
  rewrite Hl. reflexivity.
Qed.

Lemma keywords_runs heap l kws :
  heap !! l = Some (Runtime.List (map Runtime.Str kws)) ->
  Runtime.keywords (Runtime.Ref l) heap = (inr kws, heap).
Proof.
  intros Hl. unfold Runtime.keywords.
  rewrite (bind_runs _ _ _ _ _ (elements_runs _ _ _ Hl)).
  rewrite all_strings_map. reflexivity.
Qed.

Lemma setitem_runs heap d entries key v :
  heap !! d = Some (Runtime.Dict entries) ->
  Runtime.setitem (Runtime.Ref d) key v heap
  = (inr tt, <[d := Runtime.Dict (Runtime.store_key key v entries)]> heap).
Proof.
  intros Hd. unfold Runtime.setitem, Runtime.bind, Runtime.load.
  rewrite Hd. reflexivity.
Qed.

Lemma append_runs heap l items v :
  heap !! l = Some (Runtime.List items) ->
  Runtime.append (Runtime.Ref l) v heap
  = (inr tt, <[l := Runtime.List (items ++ [v])]> heap).
Proof.
  intros Hl. unfold Runtime.append, Runtime.bind, Runtime.load.
  rewrite Hl. reflexivity.
Qed.

Lemma low_matches_agree (target : string) (low : list string) :
  truthy_list
    (List.filter (fun kw => match kw with
                            | Runtime.Str kw => String.eqb target kw
                            | _ => false
                            end) (map Runtime.Str low))
  = truthy_list (List.filter (fun kw => String.eqb target kw) low).
Proof.
  induction low as [|kw low IH]; [reflexivity|].
  cbn [map List.filter]. destruct (String.eqb target kw); [reflexivity|].
  exact IH.
Qed.

(** No block sets a key of [select_model]. *)
Lemma unselected_length query a :
  unselected a -> unselected (length_analysis query a).
Proof.
  intros H. unfold length_analysis.
  destruct (Str.len query >? 1000); [exact H|].
  destruct (Str.len query >? 500); [exact H|].
  destruct (Str.len query >? 200); exact H.
Qed.

Lemma unselected_keyword self query_lower a a' :
  keyword_analysis self query_lower a = Ok a' ->
  unselected a -> unselected a'.
Proof.
  unfold keyword_analysis, getitem. intros Hrun H.
  destruct (complexity_keywords self !! "high") as [high|];
    [|discriminate Hrun].
  destruct (complexity_keywords self !! "medium") as [medium|];
    [|discriminate Hrun].
  destruct (complexity_keywords self !! "low") as [low|];
    [|discriminate Hrun].
  cbn [mbind mret Exc_bind Exc_ret] in Hrun. injection Hrun as <-.
  destruct (truthy_list (List.filter _ high));
    destruct (truthy_list (List.filter _ medium));
    destruct (truthy_list (List.filter _ low)); exact H.
Qed.

Lemma unselected_structure query query_lower a :
  unselected a -> unselected (structure_analysis query query_lower a).
Proof.
  intros H. unfold structure_analysis.
  destruct (existsb _ code_patterns);
    destruct (Str.count_char query_lower "?" >? 2);
    destruct (Re.search numbered_pattern query); exact H.
Qed.

Lemma unselected_total v a : unselected a -> unselected (set_total_score v a).
Proof. intros H. exact H. Qed.

Section Call.

Variable heap : list Runtime.object.

Lemma lookup_factors o1 o2 : (heap ++ [o1; o2]) !! length heap = Some o1.
Proof.
  rewrite lookup_app_r by lia. rewrite Nat.sub_diag. reflexivity.
Qed.

Lemma lookup_analysis o1 o2 :
  (heap ++ [o1; o2]) !! S (length heap) = Some o2.
Proof.
  rewrite lookup_app_r by lia.
  replace (S (length heap) - length heap)%nat with 1%nat by lia.
  reflexivity.
Qed.

Lemma insert_factors o o1 o2 :
  <[length heap := o]> (heap ++ [o1; o2]) = heap ++ [o; o2].
Proof.
  rewrite insert_app_r_alt by lia. rewrite Nat.sub_diag. reflexivity.
Qed.

Lemma insert_analysis o o1 o2 :
  <[S (length heap) := o]> (heap ++ [o1; o2]) = heap ++ [o1; o].
Proof.
  rewrite insert_app_r_alt by lia.
  replace (S (length heap) - length heap)%nat with 1%nat by lia.
  reflexivity.
Qed.

Local Abbreviation analysis := (Runtime.Ref (S (length heap))).

Lemma getitem_analysis a key v :
  Runtime.lookup_key key (entries_of a (length heap)) = Some v ->
  Runtime.getitem analysis key (with_analysis heap a)
  = (inr v, with_analysis heap a).
Proof.
  intros Hv. eapply getitem_runs; [|exact Hv]. apply lookup_analysis.
Qed.

Lemma setitem_analysis a a' key v :
  Runtime.store_key key v (entries_of a (length heap))
  = entries_of a' (length heap) ->
  factors a' = factors a ->
  Runtime.setitem analysis key v (with_analysis heap a)
  = (inr tt, with_analysis heap a').
Proof.
  intros He Hf. unfold with_analysis.
  rewrite (setitem_runs _ _ _ key v (lookup_analysis _ _)).
  rewrite insert_analysis, He, Hf. reflexivity.
Qed.

Lemma append_analysis a factor :
  Runtime.bind (Runtime.getitem analysis "factors")
    (fun factors => Runtime.append factors (Runtime.Str factor))
    (with_analysis heap a)
  = (inr tt, with_analysis heap (append_factor factor a)).
Proof.
  rewrite (bind_runs _ _ _ _ _ (getitem_analysis a "factors" _ eq_refl)).
  unfold with_analysis.
  rewrite (append_runs _ _ _ _ (lookup_factors _ _)).
  rewrite insert_factors. cbn [factors append_factor].
  rewrite map_app. reflexivity.
Qed.

Lemma score_keyword a n factor :
  Runtime.score analysis "keyword_score" n factor (with_analysis heap a)
  = (inr tt,
     with_analysis heap
       (append_factor factor (set_keyword_score (keyword_score a + n) a))).
Proof.
  unfold Runtime.score.
  rewrite (bind_runs _ _ _ _ _ (getitem_analysis a "keyword_score" _ eq_refl)).
  rewrite (bind_runs _ _ _ (keyword_score a) _ eq_refl).
  rewrite (bind_runs _ _ _ _ _
             (setitem_analysis a (set_keyword_score (keyword_score a + n) a)
                "keyword_score" _ eq_refl eq_refl)).
  apply append_analysis.
Qed.

Lemma score_structure a n factor :
  Runtime.score analysis "structure_score" n factor (with_analysis heap a)
  = (inr tt,
     with_analysis heap
       (append_factor factor
          (set_structure_score (structure_score a + n) a))).
Proof.
  unfold Runtime.score.
  rewrite (bind_runs _ _ _ _ _
             (getitem_analysis a "structure_score" _ eq_refl)).
  rewrite (bind_runs _ _ _ (structure_score a) _ eq_refl).
  rewrite (bind_runs _ _ _ _ _
             (setitem_analysis a
                (set_structure_score (structure_score a + n) a)
                "structure_score" _ eq_refl eq_refl)).
  apply append_analysis.
Qed.

Lemma reset_keyword a :
  Runtime.setitem analysis "keyword_score" (Runtime.Int 0)
    (with_analysis heap a)
  = (inr tt, with_analysis heap (set_keyword_score 0 a)).
Proof. apply setitem_analysis; reflexivity. Qed.

Lemma assign_total a v :
  Runtime.setitem analysis "total_score" (Runtime.Int v)
    (with_analysis heap a)
  = (inr tt, with_analysis heap (set_total_score v a)).
Proof. apply setitem_analysis; reflexivity. Qed.

Lemma length_block_runs query a :
  Runtime.length_block analysis query (with_analysis heap a)
  = (inr tt, with_analysis heap (length_analysis query a)).
Proof.
  unfold Runtime.length_block, length_analysis.
  destruct (Str.len query >? 1000);
    [|destruct (Str.len query >? 500);
      [|destruct (Str.len query >? 200); [|reflexivity]]].
  - rewrite (bind_runs _ _ _ _ _
               (setitem_analysis a (set_length_score 3 a)
                  "length_score" _ eq_refl eq_refl)).
    apply append_analysis.
  - rewrite (bind_runs _ _ _ _ _
               (setitem_analysis a (set_length_score 2 a)
                  "length_score" _ eq_refl eq_refl)).
    apply append_analysis.
  - rewrite (bind_runs _ _ _ _ _
               (setitem_analysis a (set_length_score 1 a)
                  "length_score" _ eq_refl eq_refl)).
    apply append_analysis.
Qed.

Lemma structure_block_runs query query_lower a :
  Runtime.structure_block analysis query query_lower (with_analysis heap a)
  = (inr tt, with_analysis heap (structure_analysis query query_lower a)).
Proof.
  unfold Runtime.structure_block, structure_analysis.
  destruct (existsb _ code_patterns);
    [rewrite (bind_runs _ _ _ _ _ (score_structure _ _ _))
    |rewrite (bind_runs _ _ _ tt _ eq_refl)];
    (destruct (Str.count_char query_lower "?" >? 2);
     [rewrite (bind_runs _ _ _ _ _ (score_structure _ _ _))
     |rewrite (bind_runs _ _ _ tt _ eq_refl)]);
    (destruct (Re.search numbered_pattern query);
     [apply score_structure|reflexivity]).
Qed.

Variables (this : Runtime.value) (self : QueryOrchestrator).
Variables (high medium low : list string).

Hypothesis Hheap : lexicon_at heap this high medium low.
Hypothesis Hhigh : complexity_keywords self !! "high" = Some high.
Hypothesis Hmedium : complexity_keywords self !! "medium" = Some medium.
Hypothesis Hlow : complexity_keywords self !! "low" = Some low.

Lemma keyword_block_runs query_lower a :
  exists a',
    keyword_analysis self query_lower a = Ok a'
    /\ Runtime.keyword_block this analysis query_lower (with_analysis heap a)
       = (inr tt, with_analysis heap a').
Proof.
  unfold keyword_analysis, getitem. rewrite Hhigh, Hmedium, Hlow.
  cbn [mbind mret Exc_bind Exc_ret].
  eexists. split; [reflexivity|].
  destruct Hheap as (s & attributes & d & entries & h & m & l & -> & Hs & Hd
                     & Hes & Hh & Hh' & Hm & Hm' & Hl & Hl').
  assert (Hup : forall address o b,
             heap !! address = Some o ->
             with_analysis heap b !! address = Some o)
    by (intros; apply lookup_app_l_Some; assumption).
  unfold Runtime.keyword_block.
  rewrite (bind_runs _ _ _ _ _ (getattr_runs _ _ _ _ _ (Hup _ _ _ Hs) Hd)).
  rewrite (bind_runs _ _ _ _ _ (getitem_runs _ _ _ _ _ (Hup _ _ _ Hes) Hh)).
  rewrite (bind_runs _ _ _ _ _ (keywords_runs _ _ _ (Hup _ _ _ Hh'))).
  destruct (truthy_list (List.filter _ high));
    [rewrite (bind_runs _ _ _ _ _ (score_keyword _ _ _))
    |rewrite (bind_runs _ _ _ tt _ eq_refl)];
    rewrite (bind_runs _ _ _ _ _ (getattr_runs _ _ _ _ _ (Hup _ _ _ Hs) Hd));
    rewrite (bind_runs _ _ _ _ _ (getitem_runs _ _ _ _ _ (Hup _ _ _ Hes) Hm));
    rewrite (bind_runs _ _ _ _ _ (keywords_runs _ _ _ (Hup _ _ _ Hm')));
    (destruct (truthy_list (List.filter _ medium));
     [rewrite (bind_runs _ _ _ _ _ (score_keyword _ _ _))
     |rewrite (bind_runs _ _ _ tt _ eq_refl)]);
    rewrite (bind_runs _ _ _ _ _ (getattr_runs _ _ _ _ _ (Hup _ _ _ Hs) Hd));
    rewrite (bind_runs _ _ _ _ _ (getitem_runs _ _ _ _ _ (Hup _ _ _ Hes) Hl));
    rewrite (bind_runs _ _ _ _ _ (elements_runs _ _ _ (Hup _ _ _ Hl')));
    rewrite low_matches_agree;
    (destruct (truthy_list (List.filter _ low)); [|reflexivity]);
    rewrite (bind_runs _ _ _ _ _ (reset_keyword _));
    apply append_analysis.
Qed.

Lemma analyze_query_runs query :
  exists a,
    analyze_query self query = Ok a
    /\ unselected a
    /\ Runtime.analyze_query this query heap
       = (inr analysis, with_analysis heap a).
Proof.
  destruct (keyword_block_runs (Str.lower query)
              (length_analysis query initial_analysis)) as (a1 & Hpure & Hrun).
  unfold analyze_query. cbn [mbind mret Exc_bind Exc_ret]. rewrite Hpure.
  eexists. split; [reflexivity|]. split.
  - apply unselected_total, unselected_structure.
    apply (unselected_keyword _ _ _ _ Hpure), unselected_length.
    repeat split.
  - unfold Runtime.analyze_query, Runtime.alloc.
    unfold Runtime.bind at 1. unfold Runtime.bind at 1.
    rewrite length_app, <- app_assoc. cbn [length app].
    replace (length heap + 1)%nat with (S (length heap)) by lia.
    change (heap ++ _) with (with_analysis heap initial_analysis).
    rewrite (bind_runs _ _ _ _ _ (length_block_runs _ _)).
    rewrite (bind_runs _ _ _ _ _ Hrun).
    rewrite (bind_runs _ _ _ _ _ (structure_block_runs _ _ _)).
    set (a3 := structure_analysis _ _ _).
    rewrite (bind_runs _ _ _ _ _ (getitem_analysis a3 "length_score" _ eq_refl)).
    rewrite (bind_runs _ _ _ (length_score a3) _ eq_refl).
    rewrite (bind_runs _ _ _ _ _
               (getitem_analysis a3 "keyword_score" _ eq_refl)).
    rewrite (bind_runs _ _ _ (keyword_score a3) _ eq_refl).
    rewrite (bind_runs _ _ _ _ _
               (getitem_analysis a3 "structure_score" _ eq_refl)).
    rewrite (bind_runs _ _ _ (structure_score a3) _ eq_refl).
    rewrite (bind_runs _ _ _ _ _ (assign_total a3 _)).
    reflexivity.
Qed.

End Call.

Lemma read_with_analysis heap rest a :
  unselected a ->
  Runtime.read_analysis (with_analysis heap a ++ rest)
    (Runtime.Ref (S (length heap)))
  = Some a.
Proof.
  intros (Hm & Hr & Hb). unfold Runtime.read_analysis, with_analysis.
  rewrite (lookup_app_l_Some _ _ _ _ (lookup_analysis heap _ _)).
  cbn [entries_of Runtime.lookup_key String.eqb Ascii.eqb Bool.eqb].
  rewrite (lookup_app_l_Some _ _ _ _ (lookup_factors heap _ _)).
  rewrite all_strings_map. destruct a. cbn in *. subst. reflexivity.
Qed.

Lemma lexicon_at_read heap this high medium low :
  lexicon_at heap this high medium low ->
  Runtime.read_lexicon heap this = Some (high, medium, low).
Proof.
  intros (s & attributes & d & entries & h & m & l & -> & Hs & Hd & Hes
          & Hh & Hh' & Hm & Hm' & Hl & Hl').
  unfold Runtime.read_lexicon, Runtime.read_keywords.
  rewrite Hs, Hd, Hes, Hh, Hh', Hm, Hm', Hl, Hl', !all_strings_map.
  reflexivity.
Qed.

(** The heap after the import of the modules holds the lexicon of
    config.py, whatever the settings. *)
Lemma boot_holds_lexicon (settings : Config.Settings) :
  exists this heap,
    Runtime.boot settings [] = (inr this, heap)
    /\ Runtime.read_lexicon heap this
       = Some (default [] (Config.COMPLEXITY_KEYWORDS !! "high"),
               default [] (Config.COMPLEXITY_KEYWORDS !! "medium"),
               default [] (Config.COMPLEXITY_KEYWORDS !! "low")).
Proof. eexists. eexists. split; reflexivity. Qed.

(** C8. Two calls of [analyze_query] with the same query, the second in
    the heap the first has left, on an instance whose three lists of
    keywords are lists of strings: both return, each a dictionary of its
    own; read key by key, with the factors in their order, the two hold
    the same analysis, and the second call has left the result of the
    first as it was.  No object that was there before the calls has
    changed, so the instance still holds the same keywords.  The analysis
    is the value of [analyze_query] on the query and the keywords: it is
    the same from every heap that holds these keywords, whatever else the
    heap holds. *)
Theorem analyze_query_runs_agree
    (heap : list Runtime.object) (this : Runtime.value)
    (self : QueryOrchestrator) (high medium low : list string)
    (query : string) :
  Runtime.read_lexicon heap this = Some (high, medium, low) ->
  complexity_keywords self !! "high" = Some high ->
  complexity_keywords self !! "medium" = Some medium ->
  complexity_keywords self !! "low" = Some low ->
  exists a first second heap1 heap2,
    Runtime.analyze_query this query heap = (inr first, heap1)
    /\ Runtime.analyze_query this query heap1 = (inr second, heap2)
    /\ first <> second
    /\ Runtime.read_analysis heap1 first = Some a
    /\ Runtime.read_analysis heap2 second = Some a
    /\ Runtime.read_analysis heap2 first = Some a
    /\ (forall address o,
          heap !! address = Some o -> heap2 !! address = Some o)
    /\ Runtime.read_lexicon heap2 this = Some (high, medium, low)
    /\ analyze_query self query = Ok a.
Proof.
  intros Hheap Hhigh Hmedium Hlow. apply read_lexicon_inv in Hheap.
  destruct (analyze_query_runs heap this self high medium low
              Hheap Hhigh Hmedium Hlow query) as (a & Hpure & Hnone & Hrun1).
  pose proof (lexicon_at_app heap
                [ Runtime.List (map Runtime.Str (factors a));
                  Runtime.Dict (entries_of a (length heap)) ]
                this high medium low Hheap) as Hheap1.
  fold (with_analysis heap a) in Hheap1.
  destruct (analyze_query_runs (with_analysis heap a) this self
              high medium low Hheap1 Hhigh Hmedium Hlow query)
    as (a' & Hpure' & _ & Hrun2).
  rewrite Hpure in Hpure'. injection Hpure' as <-.
  exists a, (Runtime.Ref (S (length heap))),
    (Runtime.Ref (S (length (with_analysis heap a)))),
    (with_analysis heap a), (with_analysis (with_analysis heap a) a).
  split; [exact Hrun1|]. split; [exact Hrun2|]. split.
  { unfold with_analysis. rewrite length_app. cbn [length].
    intros [= H]. lia. }
  split.
  { rewrite <- (app_nil_r (with_analysis heap a)).
    apply read_with_analysis. exact Hnone. }
  split.
  { rewrite <- (app_nil_r (with_analysis (with_analysis heap a) a)).
    apply read_with_analysis. exact Hnone. }
  split.
  { unfold with_analysis at 1. apply read_with_analysis. exact Hnone. }
  split.
  { intros address o Ho. unfold with_analysis.
    apply lookup_app_l_Some, lookup_app_l_Some. exact Ho. }
  split; [|exact Hpure].
  apply lexicon_at_read. unfold with_analysis at 1.
  apply lexicon_at_app. exact Hheap1.
Qed.

(** The heap after the import of the modules under the default settings,
    and the module-level [orchestrator] in it. *)
Definition booted_heap : list Runtime.object :=
  snd (Runtime.boot Config.default_settings []).

Definition booted_orchestrator : Runtime.value :=
  match fst (Runtime.boot Config.default_settings []) with
  | inr this => this
  | inl _ => Runtime.NoneValue
  end.

Lemma analyze_query_runs_agree_witness :
  Runtime.read_lexicon booted_heap booted_orchestrator
  = Some (default [] (Config.COMPLEXITY_KEYWORDS !! "high"),
          default [] (Config.COMPLEXITY_KEYWORDS !! "medium"),
          default [] (Config.COMPLEXITY_KEYWORDS !! "low"))
  /\ exists a first second heap1 heap2,
       Runtime.analyze_query booted_orchestrator
         "Compare 1. lists? 2. dicts? 3. sets?" booted_heap
       = (inr first, heap1)
       /\ Runtime.analyze_query booted_orchestrator
            "Compare 1. lists? 2. dicts? 3. sets?" heap1
          = (inr second, heap2)
       /\ first <> second
       /\ Runtime.read_analysis heap1 first = Some a
       /\ Runtime.read_analysis heap2 second = Some a
       /\ Runtime.read_analysis heap2 first = Some a
       /\ (forall address o,
             booted_heap !! address = Some o -> heap2 !! address = Some o)
       /\ Runtime.read_lexicon heap2 booted_orchestrator
          = Some (default [] (Config.COMPLEXITY_KEYWORDS !! "high"),
                  default [] (Config.COMPLEXITY_KEYWORDS !! "medium"),
                  default [] (Config.COMPLEXITY_KEYWORDS !! "low"))
       /\ analyze_query (orchestrator Config.default_settings)
            "Compare 1. lists? 2. dicts? 3. sets?"
          = Ok a.
Proof.
  split.
  - vm_compute. reflexivity.
  - apply (analyze_query_runs_agree booted_heap booted_orchestrator
             (orchestrator Config.default_settings)
             (default [] (Config.COMPLEXITY_KEYWORDS !! "high"))
             (default [] (Config.COMPLEXITY_KEYWORDS !! "medium"))
             (default [] (Config.COMPLEXITY_KEYWORDS !! "low"))
             "Compare 1. lists? 2. dicts? 3. sets?");
      vm_compute; reflexivity.
Defined.


(** * Further properties *)

(** ** Strings *)

Lemma length_append (a b : string) :
  String.length (a ++ b) = (String.length a + String.length b)%nat.
Proof.
  induction a as [|c a IH]; [reflexivity|].
  simpl. rewrite IH. reflexivity.
Qed.

(** ** The registry: [get_model_config], [get_available_models] and the
    two model endpoints *)

Section Registry.

Variable settings : Config.Settings.

Lemma registry_turbo :
  exists turbo,
    models (orchestrator settings) !! "gpt-35-turbo" = Some turbo
    /\ Config.display_name turbo = "GPT-3.5 Turbo"
    /\ Config.max_tokens turbo = 4096.
Proof. eexists. split; [reflexivity|]. split; reflexivity. Qed.

Lemma registry_items :
  exists big turbo,
    models (orchestrator settings) !! "gpt-4" = Some big
    /\ models (orchestrator settings) !! "gpt-35-turbo" = Some turbo
    /\ dict_items MODEL_CONFIGS_order (models (orchestrator settings))
       = [("gpt-4", big); ("gpt-35-turbo", turbo)].
Proof. do 2 eexists. split; [reflexivity|]. split; reflexivity. Qed.

Lemma get_model_config_registered model_id config :
  models (orchestrator settings) !! model_id = Some config ->
  get_model_config (orchestrator settings) model_id = Ok config.
Proof.
  intros H. destruct registry_turbo as (turbo & Ht & _).
  unfold get_model_config, getitem. rewrite Ht, H. reflexivity.
Qed.

End Registry.

(** X1. On the module-level instance [get_model_config] never raises: a
    registered id gets its own configuration, every other string gets the
    configuration of "gpt-35-turbo". *)
Theorem get_model_config_falls_back
    (settings : Config.Settings) (model_id : string) :
  exists config turbo,
    get_model_config (orchestrator settings) model_id = Ok config
    /\ Config.MODEL_CONFIGS settings !! "gpt-35-turbo" = Some turbo
    /\ (forall c, Config.MODEL_CONFIGS settings !! model_id = Some c ->
                  config = c)
    /\ (Config.MODEL_CONFIGS settings !! model_id = None -> config = turbo).
Proof.
  destruct (registry_turbo settings) as (turbo & Ht & _).
  unfold get_model_config, getitem. rewrite Ht.
  cbn [mbind mret Exc_bind Exc_ret].
  eexists. exists turbo. split; [reflexivity|]. split; [exact Ht|].
  change (models (orchestrator settings)) with (Config.MODEL_CONFIGS settings).
  split.
  - intros c Hc. rewrite Hc. reflexivity.
  - intros Hn. rewrite Hn. reflexivity.
Qed.

(** X3. [estimate_tokens] is the length divided by four, rounded down: it
    is never negative, four times it never exceeds the length and misses
    it by at most three; a text of fewer than four characters counts for
    no token. *)
Theorem estimate_tokens_bounds (self : QueryOrchestrator) (text : string) :
  0 <= estimate_tokens self text
  /\ 4 * estimate_tokens self text <= Str.len text
     < 4 * estimate_tokens self text + 4
  /\ (Str.len text < 4 -> estimate_tokens self text = 0).
Proof.
  unfold estimate_tokens.
  assert (H0 : 0 <= Str.len text) by (unfold Str.len; lia).
  pose proof (Z.div_mod (Str.len text) 4 ltac:(lia)) as Hd.
  pose proof (Z.mod_pos_bound (Str.len text) 4 ltac:(lia)) as Hm.
  split; [apply Z.div_pos; lia|]. split; [lia|].
  intros Hlt. apply Z.div_small. lia.
Qed.

(** X4. Estimating two texts apart loses at most one token against
    estimating their concatenation, and never gains. *)
Theorem estimate_tokens_concat (self : QueryOrchestrator) (a b : string) :
  estimate_tokens self a + estimate_tokens self b
  <= estimate_tokens self (a ++ b)
  <= estimate_tokens self a + estimate_tokens self b + 1.
Proof.
  unfold estimate_tokens, Str.len.
  rewrite length_append, Nat2Z.inj_add.
  set (x := Z.of_nat (String.length a)).
  set (y := Z.of_nat (String.length b)).
  pose proof (Z.div_mod x 4 ltac:(lia)) as Hx.
  pose proof (Z.mod_pos_bound x 4 ltac:(lia)) as Hxm.
  pose proof (Z.div_mod y 4 ltac:(lia)) as Hy.
  pose proof (Z.mod_pos_bound y 4 ltac:(lia)) as Hym.
  pose proof (Z.div_mod (x + y) 4 ltac:(lia)) as Hs.
  pose proof (Z.mod_pos_bound (x + y) 4 ltac:(lia)) as Hsm.
  lia.
Qed.

(** X5. [get_available_models] lists the two registered models, "gpt-4"
    first, and each element carries the fields [get_model_config] returns
    for its id. *)
Theorem get_available_models_agrees_with_config
    (settings : Config.Settings) :
  map am_id (get_available_models (orchestrator settings))
  = ["gpt-4"; "gpt-35-turbo"]
  /\ forall m, In m (get_available_models (orchestrator settings)) ->
       exists config,
         get_model_config (orchestrator settings) (am_id m) = Ok config
         /\ am_display_name m = Config.display_name config
         /\ am_description m = Config.description config
         /\ am_max_tokens m = Config.max_tokens config
         /\ am_capabilities m = Config.capabilities config.
Proof.
  destruct (registry_items settings) as (big & turbo & Hb & Ht & Hitems).
  unfold get_available_models. rewrite Hitems. cbn [map am_id].
  split; [reflexivity|].
  intros m [<- | [<- | []]]; cbn [am_id].
  - exists big. split; [exact (get_model_config_registered _ _ _ Hb)|].
    repeat split.
  - exists turbo. split; [exact (get_model_config_registered _ _ _ Ht)|].
    repeat split.
Qed.

(** X6. Whatever the query and the preferred model, the id [select_model]
    returns is the id of one of the models GET /api/models lists. *)
Theorem selected_model_is_listed
    (settings : Config.Settings) (query : string)
    (preferred_model : option string) :
  exists selected a,
    select_model (orchestrator settings) query preferred_model
    = Ok (selected, a)
    /\ In selected (map Main.id (Main.list_models settings)).
Proof.
  destruct (select_model_result settings query preferred_model)
    as (a & m & r & b & _ & Hs & Hk).
  exists m. eexists. split; [exact Hs|].
  destruct (registry_items settings) as (big & turbo & _ & _ & Hitems).
  unfold Main.list_models, get_available_models. rewrite Hitems.
  cbn [map Main.id am_id In].
  apply registry_keys in Hk as [-> | ->]; auto.
Qed.

(** X7. GET /api/models/{model_id} never answers 404 and never fails: for
    every string it returns a body under the requested id, and for an id
    that is not registered the details in that body are those the endpoint
    returns for "gpt-35-turbo". *)
Theorem get_model_never_not_found
    (settings : Config.Settings) (model_id : string) :
  exists info turbo,
    Main.get_model settings model_id = Main.Body info
    /\ Main.get_model settings "gpt-35-turbo" = Main.Body turbo
    /\ Main.id info = model_id
    /\ (Config.MODEL_CONFIGS settings !! model_id = None ->
        Main.display_name info = Main.display_name turbo
        /\ Main.description info = Main.description turbo
        /\ Main.max_tokens info = Main.max_tokens turbo
        /\ Main.capabilities info = Main.capabilities turbo
        /\ Main.display_name info = "GPT-3.5 Turbo"
        /\ Main.max_tokens info = 4096).
Proof.
  destruct (registry_turbo settings) as (turbo & Ht & Hname & Hmax).
  unfold Main.get_model.
  rewrite (get_model_config_registered _ _ _ Ht).
  unfold get_model_config, getitem. rewrite Ht.
  cbn [mbind mret Exc_bind Exc_ret Main.truthy_config negb].
  do 2 eexists. split; [reflexivity|]. split; [reflexivity|].
  split; [reflexivity|].
  change (models (orchestrator settings)) with (Config.MODEL_CONFIGS settings).
  intros ->. cbn [default Main.display_name Main.max_tokens
                  Main.description Main.capabilities].
  repeat split; assumption.
Qed.

(** X8. The list and the detail endpoint agree: every element of what
    GET /api/models returns is the body GET /api/models/{id} returns for
    its id. *)
Theorem list_models_agrees_with_get_model
    (settings : Config.Settings) (info : Main.ModelInfo) :
  In info (Main.list_models settings) ->
  Main.get_model settings (Main.id info) = Main.Body info.
Proof.
  destruct (registry_items settings) as (big & turbo & Hb & Ht & Hitems).
  unfold Main.list_models, get_available_models. rewrite Hitems.
  cbn [map In].
  intros [<- | [<- | []]]; unfold Main.get_model; cbn [Main.id am_id].
  - rewrite (get_model_config_registered _ _ _ Hb). reflexivity.
  - rewrite (get_model_config_registered _ _ _ Ht). reflexivity.
Qed.

Lemma list_models_agrees_with_get_model_witness :
  let info :=
    {| Main.id := "gpt-4";
       Main.display_name := "GPT-4";
       Main.description :=
         "Most capable model for complex reasoning and analysis";
       Main.max_tokens := 8192;
       Main.capabilities := ["complex_reasoning"; "code_generation";
                             "analysis"; "creative_writing"];
       Main.is_available := true |} in
  In info (Main.list_models Config.default_settings)
  /\ Main.get_model Config.default_settings (Main.id info) = Main.Body info.
Proof.
  intros info. split.
  - vm_compute. left. reflexivity.
  - apply (list_models_agrees_with_get_model Config.default_settings info).
    vm_compute. left. reflexivity.
Defined.

(** ** More on [analyze_query] *)

(** A literal pattern is found where the literal is a substring. *)
Lemma match_here_lit w prev s :
  Re.match_here (Re.lit w) prev s = String.prefix w s.
Proof.
  revert prev s. induction w as [|c w IH]; intros prev s.
  - destruct s; reflexivity.
  - destruct s as [|c' s]; [reflexivity|].
    cbn [Re.lit Re.match_here String.prefix].
    rewrite IH. destruct (Ascii.eqb_spec c c') as [->|Hne].
    + destruct (ascii_dec c' c'); [reflexivity|contradiction].
    + destruct (ascii_dec c c'); [contradiction|reflexivity].
Qed.

Lemma search_lit w s : Re.search (Re.lit w) s = Str.contains s w.
Proof.
  unfold Re.search. generalize (@None ascii).
  induction s as [|c s IH]; intros prev;
    cbn [Re.search_from Str.contains]; rewrite match_here_lit.
  - reflexivity.
  - rewrite IH. reflexivity.
Qed.

Section Ranges.

Variable self : QueryOrchestrator.

Lemma length_analysis_range query :
  0 <= length_score (length_analysis query initial_analysis) <= 3.
Proof.
  unfold length_analysis.
  destruct (Str.len query >? 1000); [simpl; lia|].
  destruct (Str.len query >? 500); [simpl; lia|].
  destruct (Str.len query >? 200); simpl; lia.
Qed.

Lemma structure_analysis_range query query_lower a :
  structure_score a
  <= structure_score (structure_analysis query query_lower a)
  <= structure_score a + 4.
Proof.
  unfold structure_analysis.
  destruct (existsb _ code_patterns);
    destruct (Str.count_char query_lower "?" >? 2);
    destruct (Re.search numbered_pattern query); simpl; lia.
Qed.

(** The code check alone: two points and its factor. *)
Lemma structure_analysis_code query query_lower a :
  existsb (fun pattern => Re.search pattern query) code_patterns = true ->
  structure_score a + 2
  <= structure_score (structure_analysis query query_lower a)
  /\ In "Contains code or technical content"
        (factors (structure_analysis query query_lower a)).
Proof.
  intros H. unfold structure_analysis. rewrite H.
  destruct (Str.count_char query_lower "?" >? 2);
    destruct (Re.search numbered_pattern query);
    (split; [simpl; lia|]); simpl; rewrite !in_app_iff; simpl; tauto.
Qed.

Lemma keyword_analysis_structure query_lower a a' :
  keyword_analysis self query_lower a = Ok a' ->
  structure_score a' = structure_score a.
Proof.
  intros H. apply keyword_analysis_frame in H as (_ & H & _). exact H.
Qed.

(** A block that left [factors] empty took none of its branches. *)
Lemma length_analysis_silent query a :
  factors (length_analysis query a) = [] -> length_analysis query a = a.
Proof.
  unfold length_analysis.
  destruct (Str.len query >? 1000);
    [intros H; simpl in H; now destruct (factors a)|].
  destruct (Str.len query >? 500);
    [intros H; simpl in H; now destruct (factors a)|].
  destruct (Str.len query >? 200);
    [intros H; simpl in H; now destruct (factors a)|].
  reflexivity.
Qed.

Lemma structure_analysis_silent query query_lower a :
  factors (structure_analysis query query_lower a) = [] ->
  structure_analysis query query_lower a = a.
Proof.
  unfold structure_analysis.
  destruct (existsb _ code_patterns);
    destruct (Str.count_char query_lower "?" >? 2);
    destruct (Re.search numbered_pattern query);
    try reflexivity; intros H; simpl in H;
    repeat match type of H with
      | (?l ++ [_]) = [] => now destruct l
      end.
Qed.

Lemma keyword_analysis_silent query_lower a a' :
  keyword_analysis self query_lower a = Ok a' ->
  factors a' = [] -> a' = a.
Proof.
  intros H. unfold keyword_analysis, getitem in H.
  repeat match type of H with
    | context [complexity_keywords self !! ?k] =>
        destruct (complexity_keywords self !! k) eqn:?; [|discriminate H]
    end.
  cbn [mbind mret Exc_bind Exc_ret] in H.
  repeat match type of H with
    | context [truthy_list ?l] => destruct (truthy_list l) eqn:?
    end;
    injection H as <-; try reflexivity; intros H; simpl in H;
    repeat match type of H with
      | (?l ++ [_]) = [] => now destruct l
      end.
Qed.

(** The keyword block reads [analysis] for its [keyword_score] only. *)
Lemma keyword_analysis_score query_lower a b a' b' :
  keyword_analysis self query_lower a = Ok a' ->
  keyword_analysis self query_lower b = Ok b' ->
  keyword_score a = keyword_score b ->
  keyword_score a' = keyword_score b'.
Proof.
  intros Ha Hb Hab. unfold keyword_analysis, getitem in Ha, Hb.
  repeat match type of Ha with
    | context [complexity_keywords self !! ?k] =>
        destruct (complexity_keywords self !! k) eqn:?; [|discriminate Ha]
    end.
  cbn [mbind mret Exc_bind Exc_ret] in Ha, Hb.
  repeat match type of Ha with
    | context [truthy_list ?l] => destruct (truthy_list l) eqn:?
    end;
    injection Ha as <-; injection Hb as <-; simpl; lia.
Qed.

End Ranges.

(** X9. The component scores are bounded: [length_score] by 3,
    [structure_score] by 4, and [total_score] lies between 0 and 10. *)
Theorem scores_are_bounded (settings : Config.Settings) (query : string) :
  exists a,
    analyze_query (orchestrator settings) query = Ok a
    /\ 0 <= length_score a <= 3
    /\ 0 <= structure_score a <= 4
    /\ 0 <= total_score a <= 10.
Proof.
  destruct (analyze_query_returns settings query) as [a Ha].
  exists a. split; [exact Ha|].
  pose proof (analyze_query_keyword_range _ _ _ Ha) as Hk.
  pose proof (analyze_query_sum _ _ _ Ha) as Hsum.
  destruct (analyze_query_length _ _ _ Ha) as (Hl & _).
  pose proof (length_analysis_range query) as Hlr. rewrite <- Hl in Hlr.
  apply analyze_query_inv in Ha as (a1 & Hk1 & ->).
  cbn [structure_score set_total_score length_score keyword_score
       total_score] in *.
  pose proof (structure_analysis_range query (Str.lower query) a1) as Hs.
  rewrite (keyword_analysis_structure _ _ _ _ Hk1) in Hs.
  destruct (length_analysis_frame query initial_analysis) as (_ & Hs0).
  rewrite Hs0 in Hs. cbn [structure_score initial_analysis] in Hs.
  lia.
Qed.

(** X10. No score without a factor: when the list of factors is empty,
    the three component scores and the total are all 0. *)
Theorem empty_factors_mean_zero_score
    (settings : Config.Settings) (query : string) :
  exists a,
    analyze_query (orchestrator settings) query = Ok a
    /\ (factors a = [] ->
        length_score a = 0 /\ keyword_score a = 0
        /\ structure_score a = 0 /\ total_score a = 0).
Proof.
  destruct (analyze_query_returns settings query) as [a Ha].
  exists a. split; [exact Ha|].
  apply analyze_query_inv in Ha as (a1 & Hk1 & ->).
  cbn [factors set_total_score]. intros Hf.
  pose proof (structure_analysis_silent _ _ _ Hf) as Hs.
  rewrite Hs in Hf |- *.
  pose proof (keyword_analysis_silent _ _ _ _ Hk1 Hf) as ->.
  rewrite (length_analysis_silent _ _ Hf). repeat split.
Qed.

(** X11. Keyword matching is blind to case: two queries with the same
    lower-case form get the same [keyword_score]. *)
Theorem keyword_score_ignores_case
    (settings : Config.Settings) (query1 query2 : string) :
  Str.lower query1 = Str.lower query2 ->
  exists a1 a2,
    analyze_query (orchestrator settings) query1 = Ok a1
    /\ analyze_query (orchestrator settings) query2 = Ok a2
    /\ keyword_score a1 = keyword_score a2.
Proof.
  intros Hlow.
  destruct (analyze_query_returns settings query1) as [a1 H1].
  destruct (analyze_query_returns settings query2) as [a2 H2].
  exists a1, a2. split; [exact H1|]. split; [exact H2|].
  apply analyze_query_inv in H1 as (b1 & Hk1 & ->).
  apply analyze_query_inv in H2 as (b2 & Hk2 & ->).
  cbn [keyword_score set_total_score].
  destruct (structure_analysis_frame query1 (Str.lower query1) b1)
    as (_ & -> & _).
  destruct (structure_analysis_frame query2 (Str.lower query2) b2)
    as (_ & -> & _).
  rewrite Hlow in Hk1.
  apply (keyword_analysis_score _ _ _ _ _ _ Hk1 Hk2).
  destruct (length_analysis_frame query1 initial_analysis) as (-> & _).
  destruct (length_analysis_frame query2 initial_analysis) as (-> & _).
  reflexivity.
Qed.

Lemma keyword_score_ignores_case_witness :
  Str.lower "ANALYZE this List" = Str.lower "analyze THIS list"
  /\ exists a1 a2,
    analyze_query (orchestrator Config.default_settings)
      "ANALYZE this List" = Ok a1
    /\ analyze_query (orchestrator Config.default_settings)
         "analyze THIS list" = Ok a2
    /\ keyword_score a1 = keyword_score a2.
Proof.
  split.
  - vm_compute. reflexivity.
  - apply (keyword_score_ignores_case Config.default_settings
             "ANALYZE this List" "analyze THIS list").
    vm_compute. reflexivity.
Defined.

(** X12. A query with a fence of three backquotes anywhere gets at least
    2 as [structure_score], and the factor "Contains code or technical
    content". *)
Theorem fenced_code_is_detected (settings : Config.Settings) (query : string) :
  Str.contains query "```" = true ->
  exists a,
    analyze_query (orchestrator settings) query = Ok a
    /\ 2 <= structure_score a
    /\ In "Contains code or technical content" (factors a).
Proof.
  intros Hfence.
  assert (Hcode : existsb (fun pattern => Re.search pattern query)
                    code_patterns = true).
  { unfold code_patterns. cbn [existsb].
    rewrite (search_lit "```" query), Hfence. reflexivity. }
  destruct (analyze_query_returns settings query) as [a Ha].
  exists a. split; [exact Ha|].
  apply analyze_query_inv in Ha as (a1 & Hk1 & ->).
  cbn [structure_score factors set_total_score].
  destruct (structure_analysis_code query (Str.lower query) a1 Hcode)
    as (Hs & Hin).
  split; [|exact Hin].
  rewrite (keyword_analysis_structure _ _ _ _ Hk1) in Hs.
  destruct (length_analysis_frame query initial_analysis) as (_ & Hs0).
  rewrite Hs0 in Hs. cbn [structure_score initial_analysis] in Hs. lia.
Qed.

Lemma fenced_code_is_detected_witness :
  Str.contains "see ```x = 1``` here" "```" = true
  /\ exists a,
    analyze_query (orchestrator Config.default_settings)
      "see ```x = 1``` here" = Ok a
    /\ 2 <= structure_score a
    /\ In "Contains code or technical content" (factors a).
Proof.
  split.
  - vm_compute. reflexivity.
  - apply (fenced_code_is_detected Config.default_settings
             "see ```x = 1``` here").
    vm_compute. reflexivity.
Defined.

(** X13. A query of more than 1000 characters in which one of the code
    patterns is found is routed to "gpt-4" when no preferred model is
    given, whatever its keywords. *)
Theorem long_code_query_goes_to_gpt4
    (settings : Config.Settings) (query : string) :
  Str.len query > 1000 ->
  existsb (fun pattern => Re.search pattern query) code_patterns = true ->
  exists a,
    select_model (orchestrator settings) query None = Ok ("gpt-4", a)
    /\ 5 <= total_score a.
Proof.
  intros Hlen Hcode.
  destruct (analyze_query_returns settings query) as [a Ha].
  assert (Htot : 5 <= total_score a).
  { pose proof (analyze_query_keyword_range _ _ _ Ha) as Hk.
    pose proof (analyze_query_sum _ _ _ Ha) as Hsum.
    destruct (analyze_query_length _ _ _ Ha) as (Hl & _).
    assert (Hl3 : length_score a = 3).
    { rewrite Hl. unfold length_analysis.
      destruct (Str.len query >? 1000) eqn:E; [reflexivity|lia]. }
    apply analyze_query_inv in Ha as (a1 & Hk1 & ->).
    cbn [structure_score set_total_score length_score keyword_score
         total_score] in *.
    destruct (structure_analysis_code query (Str.lower query) a1 Hcode)
      as (Hs & _).
    rewrite (keyword_analysis_structure _ _ _ _ Hk1) in Hs.
    destruct (length_analysis_frame query initial_analysis) as (_ & Hs0).
    rewrite Hs0 in Hs. cbn [structure_score initial_analysis] in Hs. lia. }
  unfold select_model. rewrite Ha. cbn [mbind mret Exc_bind Exc_ret].
  destruct (total_score a >=? 4) eqn:E4; [|lia].
  eexists. split; [reflexivity|]. exact Htot.
Qed.

Lemma long_code_query_goes_to_gpt4_witness :
  let query := ("def f(x): return x " ++ chars 1000)%string in
  Str.len query > 1000
  /\ existsb (fun pattern => Re.search pattern query) code_patterns = true
  /\ exists a,
    select_model (orchestrator Config.default_settings) query None
    = Ok ("gpt-4", a)
    /\ 5 <= total_score a.
Proof.
  intros query. split; [vm_compute; reflexivity|].
  split; [vm_compute; reflexivity|].
  apply (long_code_query_goes_to_gpt4 Config.default_settings query);
    vm_compute; reflexivity.
Defined.

(** ** Greetings

    A query that is a "low" keyword up to case and surrounding white space
    has nothing in it but white space and the letters of the keyword; no
    code pattern, question mark or numbered item can be found in it. *)

Definition chars_of (s : string) : list ascii := list_ascii_of_string s.

(** A run of [n] spaces. *)
Definition chars_of_spaces (n : nat) : string :=
  string_of_list_ascii (List.repeat " "%char n).

(** No character of a query whose lower-case form strips to [keyword] can
    be [c]: [c] in lower case is neither white space nor a character of
    [keyword]. *)
Definition foreign (keyword : string) (c : ascii) : bool :=
  negb (Unicode.isspace (Unicode.lower_char c))
  && negb (existsb (Ascii.eqb (Unicode.lower_char c)) (chars_of keyword)).

(** A pattern with a literal character that is foreign to [keyword]. *)
Definition needs_foreign (keyword : string) (p : Re.pattern) : bool :=
  existsb (fun item => match item with
                       | Re.Chr c => foreign keyword c
                       | _ => false
                       end) p.

Lemma match_here_literal p :
  forall prev s, Re.match_here p prev s = true ->
  forall c, In (Re.Chr c) p -> In c (chars_of s).
Proof.
  induction p as [|item p IH]; intros prev s Hm c Hin; [destruct Hin|].
  destruct item as [c0|k|]; cbn [Re.match_here] in Hm.
  - destruct s as [|c' s]; [discriminate|].
    destruct (Ascii.eqb_spec c0 c') as [->|]; [|discriminate].
    destruct Hin as [[= ->]|Hin]; [left; reflexivity|].
    right. exact (IH _ _ Hm c Hin).
  - destruct Hin as [Hin|Hin]; [discriminate|].
    revert prev Hm. induction s as [|c' s IHs]; intros prev Hm;
      [discriminate|].
    destruct (Re.in_cls k c'); [|discriminate].
    right. fold (chars_of s).
    match type of Hm with
    | (if ?more then true else _) = true => destruct more eqn:Hmore
    end.
    + exact (IHs _ Hmore).
    + exact (IH _ _ Hm c Hin).
  - destruct Hin as [Hin|Hin]; [discriminate|].
    destruct (Re.at_boundary prev s); [|discriminate].
    exact (IH _ _ Hm c Hin).
Qed.

Lemma search_literal p s c :
  Re.search p s = true -> In (Re.Chr c) p -> In c (chars_of s).
Proof.
  unfold Re.search. generalize (@None ascii).
  induction s as [|c' s IH]; intros prev Hs Hin; cbn [Re.search_from] in Hs.
  - destruct (Re.match_here p prev EmptyString) eqn:Hm; [|discriminate].
    exact (match_here_literal p _ _ Hm c Hin).
  - destruct (Re.match_here p prev (String c' s)) eqn:Hm.
    + exact (match_here_literal p _ _ Hm c Hin).
    + right. exact (IH _ Hs Hin).
Qed.

Lemma lstrip_chars c s :
  In c (chars_of s) ->
  Unicode.isspace c = true \/ In c (chars_of (Str.lstrip s)).
Proof.
  induction s as [|c' s IH]; intros Hin; [destruct Hin|].
  cbn [Str.lstrip]. destruct (Unicode.isspace c') eqn:Hc'.
  - destruct Hin as [<-|Hin]; [left; exact Hc'|exact (IH Hin)].
  - right. exact Hin.
Qed.

Lemma rstrip_chars c s :
  In c (chars_of s) ->
  Unicode.isspace c = true \/ In c (chars_of (Str.rstrip s)).
Proof.
  induction s as [|c' s IH]; intros Hin; [destruct Hin|].
  cbn [Str.rstrip]. destruct Hin as [<-|Hin].
  - destruct (Str.rstrip s).
    + destruct (Unicode.isspace c') eqn:Hc'; [left; reflexivity|].
      right. left. reflexivity.
    + right. left. reflexivity.
  - destruct (IH Hin) as [Hs|Hr]; [left; exact Hs|].
    destruct (Str.rstrip s); [destruct Hr|]. right. right. exact Hr.
Qed.

Lemma lower_chars c s :
  In c (chars_of s) -> In (Unicode.lower_char c) (chars_of (Str.lower s)).
Proof.
  induction s as [|c' s IH]; intros Hin; [destruct Hin|].
  destruct Hin as [<-|Hin]; [left; reflexivity|right; exact (IH Hin)].
Qed.

Lemma foreign_absent keyword query c :
  Str.strip (Str.lower query) = keyword ->
  foreign keyword c = true ->
  ~ In c (chars_of query).
Proof.
  intros Hstrip Hf Hin. unfold foreign in Hf.
  apply andb_true_iff in Hf as (Hsp & Hkw).
  apply negb_true_iff in Hsp. apply negb_true_iff in Hkw.
  apply lower_chars in Hin.
  destruct (lstrip_chars _ _ Hin) as [Hs|Hl]; [congruence|].
  destruct (rstrip_chars _ _ Hl) as [Hs|Hr]; [congruence|].
  fold (Str.strip (Str.lower query)) in Hr. rewrite Hstrip in Hr.
  assert (Hex : existsb (Ascii.eqb (Unicode.lower_char c)) (chars_of keyword)
                = true).
  { apply existsb_exists. eexists. split; [exact Hr|apply Ascii.eqb_refl]. }
  congruence.
Qed.

Lemma needs_foreign_no_match keyword query p :
  Str.strip (Str.lower query) = keyword ->
  needs_foreign keyword p = true ->
  Re.search p query = false.
Proof.
  intros Hstrip Hp. destruct (Re.search p query) eqn:Hs; [|reflexivity].
  apply existsb_exists in Hp as (item & Hin & Hf).
  destruct item as [c| |]; try discriminate.
  exfalso. apply (foreign_absent _ _ _ Hstrip Hf).
  exact (search_literal _ _ _ Hs Hin).
Qed.

Lemma no_pattern_matches keyword query ps :
  Str.strip (Str.lower query) = keyword ->
  forallb (needs_foreign keyword) ps = true ->
  existsb (fun p => Re.search p query) ps = false.
Proof.
  intros Hstrip. induction ps as [|p ps IH]; intros Hall; [reflexivity|].
  cbn [forallb existsb] in *. apply andb_true_iff in Hall as (Hp & Hps).
  rewrite (needs_foreign_no_match _ _ _ Hstrip Hp), (IH Hps). reflexivity.
Qed.

Lemma count_char_absent s c :
  ~ In c (chars_of s) -> Str.count_char s c = 0.
Proof.
  induction s as [|c' s IH]; intros Hn; [reflexivity|].
  cbn [Str.count_char]. rewrite IH by (intros H; apply Hn; right; exact H).
  destruct (Ascii.eqb_spec c' c) as [->|]; [|reflexivity].
  exfalso. apply Hn. left. reflexivity.
Qed.

(** The structure block leaves such a query as it finds it. *)
Lemma structure_analysis_greeting keyword query a :
  Str.strip (Str.lower query) = keyword ->
  forallb (needs_foreign keyword) (numbered_pattern :: code_patterns) = true ->
  foreign keyword "?" = true ->
  structure_analysis query (Str.lower query) a = a.
Proof.
  intros Hstrip Hall Hq. cbn [forallb] in Hall.
  apply andb_true_iff in Hall as (Hnum & Hcode).
  unfold structure_analysis.
  rewrite (no_pattern_matches _ _ _ Hstrip Hcode).
  rewrite (needs_foreign_no_match _ _ _ Hstrip Hnum).
  assert (Hcount : Str.count_char (Str.lower query) "?" = 0).
  { apply count_char_absent. intros Hin.
    destruct (lstrip_chars _ _ Hin) as [Hs|Hl]; [discriminate Hs|].
    destruct (rstrip_chars _ _ Hl) as [Hs|Hr]; [discriminate Hs|].
    fold (Str.strip (Str.lower query)) in Hr. rewrite Hstrip in Hr.
    unfold foreign in Hq. apply andb_true_iff in Hq as (_ & Hkw).
    apply negb_true_iff in Hkw.
    assert (Hex : existsb (Ascii.eqb (Unicode.lower_char "?"))
                    (chars_of keyword) = true).
    { apply existsb_exists. exists "?"%char. split; [exact Hr|reflexivity]. }
    congruence. }
  rewrite Hcount. reflexivity.
Qed.

(** X14. A greeting never reaches "gpt-4" on its own: when the query, in
    lower case and stripped, is one of the "low" keywords, its
    [keyword_score] and [structure_score] are 0, its [total_score] is its
    [length_score], and [select_model] without a preferred model returns
    "gpt-35-turbo", however much white space surrounds the word. *)
Theorem greeting_goes_to_turbo (settings : Config.Settings) (query : string) :
  In (Str.strip (Str.lower query))
     ["hi"; "hello"; "thanks"; "yes"; "no"; "ok"; "bye"] ->
  exists a,
    select_model (orchestrator settings) query None = Ok ("gpt-35-turbo", a)
    /\ keyword_score a = 0
    /\ structure_score a = 0
    /\ total_score a = length_score a
    /\ total_score a <= 3.
Proof.
  intros Hlow.
  destruct (analyze_query_returns settings query) as [a Ha].
  destruct (analyze_query_low _ _ _ _ Ha (lexicon_low settings) Hlow)
    as (Hk & _).
  pose proof (analyze_query_sum _ _ _ Ha) as Hsum.
  destruct (analyze_query_length _ _ _ Ha) as (Hl & _).
  pose proof (length_analysis_range query) as Hlr. rewrite <- Hl in Hlr.
  assert (Hs : structure_score a = 0).
  { apply analyze_query_inv in Ha as (a1 & Hk1 & ->).
    cbn [structure_score set_total_score].
    assert (Hid : structure_analysis query (Str.lower query) a1 = a1).
    { cbn [In] in Hlow.
      destruct Hlow as [H|[H|[H|[H|[H|[H|[H|[]]]]]]]]; symmetry in H;
        apply (structure_analysis_greeting _ _ _ H); reflexivity. }
    rewrite Hid, (keyword_analysis_structure _ _ _ _ Hk1).
    destruct (length_analysis_frame query initial_analysis) as (_ & ->).
    reflexivity. }
  unfold select_model. rewrite Ha. cbn [mbind mret Exc_bind Exc_ret].
  destruct (total_score a >=? 4) eqn:E4; [lia|].
  destruct (total_score a >=? 2); eexists;
    (split; [reflexivity|]);
    cbn [keyword_score structure_score total_score length_score
         set_was_auto_selected set_recommended_model set_selection_reason];
    repeat split; lia.
Qed.

Lemma greeting_goes_to_turbo_witness :
  let query := (chars_of_spaces 1200 ++ "Hello" ++ chars_of_spaces 3)%string in
  In (Str.strip (Str.lower query))
     ["hi"; "hello"; "thanks"; "yes"; "no"; "ok"; "bye"]
  /\ exists a,
    select_model (orchestrator Config.default_settings) query None
    = Ok ("gpt-35-turbo", a)
    /\ keyword_score a = 0
    /\ structure_score a = 0
    /\ total_score a = length_score a
    /\ total_score a <= 3.
Proof.
  intros query.
  assert (H : In (Str.strip (Str.lower query))
                ["hi"; "hello"; "thanks"; "yes"; "no"; "ok"; "bye"]).
  { vm_compute. right. left. reflexivity. }
  split; [exact H|].
  exact (greeting_goes_to_turbo Config.default_settings query H).
Defined.

(** ** The Azure OpenAI client *)

Section AzureClient.

Variable settings : Config.Settings.
Variable completions_create :
  list Azure.Request -> Azure.Request
  -> Azure.ServiceException + Azure.ChatCompletion.
Variable completions_stream :
  list Azure.Request -> Azure.Request
  -> Azure.ServiceException + Azure.AsyncStream.
Variable gpt4_mock_text : string -> string.
Variable turbo_mock_text : string -> string.

Local Abbreviation chat_completion_fuel :=
  (Azure.chat_completion_fuel settings completions_create completions_stream
     gpt4_mock_text turbo_mock_text).
Local Abbreviation chat_completion :=
  (Azure.chat_completion settings completions_create completions_stream
     gpt4_mock_text turbo_mock_text).
Local Abbreviation chat_completion_stream :=
  (Azure.chat_completion_stream settings completions_stream
     gpt4_mock_text turbo_mock_text).

(** The deployment and the token limit a model id stands for. *)
Definition deployment_of (model_id : string) : string :=
  if String.eqb model_id "gpt-4"
  then Config.azure_openai_gpt4_deployment settings
  else Config.azure_openai_gpt35_deployment settings.

Definition limit_of (model_id : string) : Z :=
  if String.eqb model_id "gpt-4" then 8192 else 4096.

(** The request [chat_completion] builds for a model id. *)
Definition request_for (messages : list Azure.Message) (model_id : string)
    (max_tokens : Z) (temperature : Q) (stream : bool) : Azure.Request :=
  {| Azure.model := deployment_of model_id;
     Azure.messages := messages;
     Azure.max_tokens := Z.min max_tokens (limit_of model_id);
     Azure.temperature := temperature;
     Azure.stream := stream |}.

Lemma model_config_of_ok model_id :
  exists config,
    Azure.model_config_of settings model_id = Ok config
    /\ Config.deployment_name config = deployment_of model_id
    /\ Config.max_tokens config = limit_of model_id.
Proof.
  unfold Azure.model_config_of, getitem, deployment_of, limit_of.
  destruct (registry_items settings) as (big & turbo & Hb & Ht & _).
  change (models (orchestrator settings))
    with (Config.MODEL_CONFIGS settings) in Hb, Ht.
  rewrite Ht. cbn [mbind mret Exc_bind Exc_ret].
  destruct (String.eqb_spec model_id "gpt-4") as [->|Hne].
  - rewrite Hb. eexists. split; [reflexivity|].
    injection Hb as <-. split; reflexivity.
  - destruct (Config.MODEL_CONFIGS settings !! model_id) as [c|] eqn:Hc.
    + assert (Hk : is_Some (models (orchestrator settings) !! model_id))
        by (eexists; exact Hc).
      apply registry_keys in Hk as [->| ->]; [contradiction|].
      rewrite Ht in Hc. injection Hc as <-.
      eexists. split; [reflexivity|]. injection Ht as <-. split; reflexivity.
    + eexists. split; [reflexivity|]. injection Ht as <-. split; reflexivity.
Qed.

(** What becomes of an exception raised in the [try] block, [fuel]
    levels of calls being left: the [except] clause runs for an instance
    of [Exception] only. *)
Definition on_failure (fuel : nat) (self : Azure.AzureOpenAIClient)
    (messages : list Azure.Message) (model_id : string) (max_tokens : Z)
    (temperature : Q) (stream : bool) (e : Azure.Error)
    : Azure.M Azure.Reply :=
  if Azure.is_exception e then
    if String.eqb model_id "gpt-4" then
      chat_completion_fuel fuel self messages "gpt-35-turbo" max_tokens
        temperature stream
    else Azure.raise e
  else Azure.raise e.

(** One level of [chat_completion] on an initialized client: the clock is
    read, the request is sent, and the answer of the service decides. *)
Lemma chat_completion_step fuel self messages model_id max_tokens
    temperature stream w :
  Azure._initialized self = true ->
  chat_completion_fuel (S fuel) self messages model_id max_tokens
    temperature stream w
  = let request :=
      request_for messages model_id max_tokens temperature stream in
    let w1 := {| Azure.sent := Azure.sent w ++ [request];
                 Azure.clock := S (Azure.clock w) |} in
    let failed :=
      on_failure fuel self messages model_id max_tokens temperature stream in
    if stream then
      match completions_stream (Azure.sent w) request with
      | inl e => failed (Azure.Upstream e) w1
      | inr response => (Azure.Returns (Azure.Streaming response model_id), w1)
      end
    else
      match completions_create (Azure.sent w) request with
      | inl e => failed (Azure.Upstream e) w1
      | inr response =>
          let w2 := {| Azure.sent := Azure.sent w ++ [request];
                       Azure.clock := S (S (Azure.clock w)) |} in
          match Azure.choices response with
          | [] => failed Azure.IndexError w2
          | first :: _ =>
              (Azure.Returns
                 (Azure.Completed (Azure.message_content first) model_id
                    (match Azure.usage response with
                     | Some total_tokens => total_tokens
                     | None => 0
                     end)
                    (Azure.Elapsed (Azure.clock w) (S (Azure.clock w)))
                    (Azure.finish_reason first) false), w2)
          end
      end.
Proof.
  intros Hinit.
  destruct (model_config_of_ok model_id) as (config & Hc & Hd & Hm).
  cbn [Azure.chat_completion_fuel]. rewrite Hc, Hinit.
  unfold request_for, on_failure. rewrite <- Hd, <- Hm.
  unfold Azure.bind, Azure.lift, Azure.ret, Azure.try_except,
    Azure.time_time, Azure.create, Azure.create_stream, Azure.raise.
  cbn [negb Azure.sent Azure.clock].
  destruct stream.
  - destruct (completions_stream _ _) as [[message|message]|response];
      reflexivity.
  - destruct (completions_create _ _) as [[message|message]|response];
      try reflexivity.
    cbn [Azure.sent Azure.clock].
    destruct (Azure.choices response); reflexivity.
Qed.

Lemma mock_responses_turbo (a b : string) :
  ({[ "gpt-4" := a; "gpt-35-turbo" := b ]} : gmap string string)
    !! "gpt-35-turbo" = Some b.
Proof. reflexivity. Qed.

(** In mock mode nothing is sent and the clock is not read. *)
Lemma chat_completion_mock fuel self messages model_id max_tokens
    temperature stream w :
  Azure._initialized self = false ->
  exists text,
    chat_completion_fuel (S fuel) self messages model_id max_tokens
      temperature stream w
    = (Azure.Returns
         (Azure.Completed (Some text) model_id (Str.len text / 4)
            (Azure.Literal (5 # 10)) "stop" true), w)
    /\ Azure._mock_response gpt4_mock_text turbo_mock_text self messages
         model_id w
       = (Azure.Returns
            (Azure.Completed (Some text) model_id (Str.len text / 4)
               (Azure.Literal (5 # 10)) "stop" true), w).
Proof.
  intros Hinit.
  destruct (model_config_of_ok model_id) as (config & Hc & _).
  cbn [Azure.chat_completion_fuel]. rewrite Hc, Hinit.
  unfold Azure._mock_response, getitem.
  rewrite mock_responses_turbo.
  cbn [mbind mret Exc_bind Exc_ret].
  unfold Azure.bind, Azure.lift, Azure.ret. cbn [negb].
  eexists. split; reflexivity.
Qed.

(** Splits on every answer of the service the goal depends on. *)
Ltac service_cases :=
  repeat match goal with
    | |- context [match completions_create ?h ?r with _ => _ end] =>
        let E := fresh "Hcreate" in
        destruct (completions_create h r)
          as [[?message|?message]|?response] eqn:E;
        cbn [Azure.is_exception]
    | |- context [match completions_stream ?h ?r with _ => _ end] =>
        let E := fresh "Hstream" in
        destruct (completions_stream h r)
          as [[?message|?message]|?response] eqn:E;
        cbn [Azure.is_exception]
    | |- context [match Azure.choices ?r with _ => _ end] =>
        let E := fresh "Hchoices" in
        destruct (Azure.choices r) as [|?first ?others] eqn:E;
        cbn [Azure.is_exception]
    end.

(** Without a fallback to make, one level is enough. *)
Lemma chat_completion_one_level fuel self messages model_id max_tokens
    temperature stream w :
  model_id <> "gpt-4" ->
  chat_completion_fuel (S fuel) self messages model_id max_tokens
    temperature stream w
  = chat_completion_fuel 1 self messages model_id max_tokens
      temperature stream w
  /\ fst (chat_completion_fuel 1 self messages model_id max_tokens
            temperature stream w) <> Azure.OutOfFuel.
Proof.
  intros Hne. destruct (Azure._initialized self) eqn:Hinit.
  - rewrite !chat_completion_step by exact Hinit.
    unfold on_failure. apply String.eqb_neq in Hne. rewrite Hne.
    cbv zeta.
    destruct stream; service_cases; (split; [reflexivity|discriminate]).
  - destruct (chat_completion_mock fuel self messages model_id max_tokens
                temperature stream w Hinit) as (t1 & H1 & Hm1).
    destruct (chat_completion_mock 0 self messages model_id max_tokens
                temperature stream w Hinit) as (t2 & H2 & Hm2).
    rewrite H1, H2. rewrite Hm1 in Hm2. split; [exact Hm2|discriminate].
Qed.

(** A request that carries the caller's messages, temperature and stream
    flag unchanged, asks for no more tokens than the caller allows or than
    any model takes, and goes to one of the two deployments. *)
Definition faithful_request (messages : list Azure.Message) (max_tokens : Z)
    (temperature : Q) (stream : bool) (request : Azure.Request) : Prop :=
  Azure.messages request = messages
  /\ Azure.temperature request = temperature
  /\ Azure.stream request = stream
  /\ Azure.max_tokens request <= max_tokens
  /\ Azure.max_tokens request <= 8192
  /\ (Azure.model request = Config.azure_openai_gpt4_deployment settings
      \/ Azure.model request = Config.azure_openai_gpt35_deployment settings).

Lemma request_for_faithful messages model_id max_tokens temperature stream :
  faithful_request messages max_tokens temperature stream
    (request_for messages model_id max_tokens temperature stream).
Proof.
  unfold faithful_request, request_for, limit_of, deployment_of.
  cbn [Azure.messages Azure.temperature Azure.stream Azure.max_tokens
       Azure.model].
  destruct (String.eqb model_id "gpt-4");
    repeat split; try lia; auto.
Qed.

(** X15. The fallback is one call deep: with any number of levels from two
    on, [chat_completion] does what it does with two, and two are never
    used up. *)
Theorem chat_completion_depth (extra : nat) self messages model_id
    max_tokens temperature stream w :
  chat_completion_fuel (2 + extra) self messages model_id max_tokens
    temperature stream w
  = chat_completion self messages model_id max_tokens temperature stream w
  /\ fst (chat_completion self messages model_id max_tokens temperature
            stream w) <> Azure.OutOfFuel.
Proof.
  unfold Azure.chat_completion.
  destruct (String.eqb_spec model_id "gpt-4") as [->|Hne].
  - destruct (Azure._initialized self) eqn:Hinit.
    + change (2 + extra)%nat with (S (S extra)).
      rewrite !chat_completion_step by exact Hinit.
      unfold on_failure. cbn [String.eqb Ascii.eqb Bool.eqb]. cbv zeta.
      assert (Hlow : forall w',
                 chat_completion_fuel (S extra) self messages "gpt-35-turbo"
                   max_tokens temperature stream w'
                 = chat_completion_fuel 1 self messages "gpt-35-turbo"
                     max_tokens temperature stream w'
                 /\ fst (chat_completion_fuel 1 self messages "gpt-35-turbo"
                           max_tokens temperature stream w')
                    <> Azure.OutOfFuel).
      { intros w'. apply chat_completion_one_level. discriminate. }
      destruct stream; service_cases;
        try (split; [reflexivity|discriminate]); apply Hlow.
    + change (2 + extra)%nat with (S (S extra)).
      destruct (chat_completion_mock (S extra) self messages "gpt-4"
                  max_tokens temperature stream w Hinit) as (t1 & H1 & Hm1).
      destruct (chat_completion_mock 1 self messages "gpt-4" max_tokens
                  temperature stream w Hinit) as (t2 & H2 & Hm2).
      rewrite H1, H2. rewrite Hm1 in Hm2. split; [exact Hm2|discriminate].
  - change (2 + extra)%nat with (S (S extra)).
    destruct (chat_completion_one_level (S extra) self messages model_id
                max_tokens temperature stream w Hne) as (H1 & Hf).
    destruct (chat_completion_one_level 1 self messages model_id
                max_tokens temperature stream w Hne) as (H2 & _).
    rewrite H1, H2. split; [reflexivity|exact Hf].
Qed.

(** X16. Whatever the service answers, one call of [chat_completion]
    sends at most two requests, two only when the model asked for is
    "gpt-4", and each request carries the caller's messages, temperature
    and stream flag, with a token limit that exceeds neither the caller's
    nor 8192. *)
Theorem chat_completion_requests self messages model_id max_tokens
    temperature stream w :
  exists new,
    Azure.sent (snd (chat_completion self messages model_id max_tokens
                       temperature stream w))
    = Azure.sent w ++ new
    /\ (length new <= 2)%nat
    /\ (length new = 2%nat -> model_id = "gpt-4")
    /\ Forall (faithful_request messages max_tokens temperature stream) new.
Proof.
  pose proof (request_for_faithful messages model_id max_tokens temperature
                stream) as Hreq.
  pose proof (request_for_faithful messages "gpt-35-turbo" max_tokens
                temperature stream) as Hreq2.
  unfold Azure.chat_completion.
  destruct (Azure._initialized self) eqn:Hinit.
  - rewrite chat_completion_step by exact Hinit. unfold on_failure.
    destruct (String.eqb_spec model_id "gpt-4") as [->|Hne]; cbv zeta.
    + cbn [String.eqb Ascii.eqb Bool.eqb].
      destruct stream; service_cases;
        rewrite ?chat_completion_step by exact Hinit; unfold on_failure;
        cbn [String.eqb Ascii.eqb Bool.eqb Azure.is_exception]; cbv zeta;
        service_cases; cbn [snd Azure.sent Azure.raise];
        (eexists; split; [rewrite <- ?app_assoc; reflexivity|]);
        cbn [app length]; (split; [lia|]); (split; [reflexivity|]);
        repeat (constructor; [assumption|]); constructor.
    + destruct stream; service_cases; cbn [snd Azure.sent Azure.raise];
        (eexists; split; [reflexivity|]);
        cbn [app length]; (split; [lia|]);
        (split; [intros H; discriminate H|]);
        repeat (constructor; [assumption|]); constructor.
  - destruct (chat_completion_mock 1 self messages model_id max_tokens
                temperature stream w Hinit) as (t & H & _).
    rewrite H. exists []. cbn [snd]. split; [symmetry; apply app_nil_r|].
    split; [cbn; lia|]. split; [intros H0; discriminate H0|]. constructor.
Qed.


(** X18. For a model other than "gpt-4" there is no second attempt: on an
    initialized client, an exception of the service is raised to the
    caller as it is, and a completion without choices raises
    [IndexError], after the one request. *)
Theorem failure_propagates_without_fallback self messages model_id
    max_tokens temperature w :
  Azure._initialized self = true ->
  model_id <> "gpt-4" ->
  let request stream :=
    request_for messages model_id max_tokens temperature stream in
  let after stream ticks :=
    {| Azure.sent := Azure.sent w ++ [request stream];
       Azure.clock := (ticks + Azure.clock w)%nat |} in
  (forall e,
     completions_create (Azure.sent w) (request false) = inl e ->
     chat_completion self messages model_id max_tokens temperature false w
     = (Azure.Raises (Azure.Upstream e), after false 1%nat))
  /\ (forall response,
       completions_create (Azure.sent w) (request false) = inr response ->
       Azure.choices response = [] ->
       chat_completion self messages model_id max_tokens temperature false w
       = (Azure.Raises Azure.IndexError, after false 2%nat))
  /\ (forall e,
       completions_stream (Azure.sent w) (request true) = inl e ->
       chat_completion self messages model_id max_tokens temperature true w
       = (Azure.Raises (Azure.Upstream e), after true 1%nat)).
Proof.
  intros Hinit Hne request after. subst request after.
  apply String.eqb_neq in Hne.
  unfold Azure.chat_completion.
  repeat split; intros;
    rewrite chat_completion_step by exact Hinit; unfold on_failure;
    rewrite Hne; cbv zeta;
    repeat match goal with H : _ = _ |- _ => rewrite H end;
    try match goal with
      | |- context [Azure.is_exception (Azure.Upstream ?e)] => destruct e
      end;
    reflexivity.
Qed.

(** The attempt fails with an exception the [except] clause catches: the
    service raises an instance of [Exception], or, without [stream], it
    answers with no choice. *)
Definition attempt_fails (w : Azure.World) (request : Azure.Request) : Prop :=
  if Azure.stream request then
    exists message,
      completions_stream (Azure.sent w) request
      = inl (Azure.Ordinary message)
  else
    (exists message,
       completions_create (Azure.sent w) request
       = inl (Azure.Ordinary message))
    \/ (exists response,
          completions_create (Azure.sent w) request = inr response
          /\ Azure.choices response = []).

(** The awaited call raises an exception that is not an instance of
    [Exception]. *)
Definition attempt_interrupted (w : Azure.World) (request : Azure.Request)
    (message : string) : Prop :=
  if Azure.stream request then
    completions_stream (Azure.sent w) request = inl (Azure.BaseOnly message)
  else
    completions_create (Azure.sent w) request = inl (Azure.BaseOnly message).

(** X19. When the attempt for "gpt-4" fails with an exception that is an
    instance of [Exception], [chat_completion] does what a call for
    "gpt-35-turbo" does in the world the failure leaves: that call's reply
    or that call's exception, and a reply then names "gpt-35-turbo".  An
    exception that is not an instance of [Exception], such as the
    [CancelledError] of a cancelled task, is not caught: it reaches the
    caller after the one request, and there is no fallback. *)
Theorem gpt4_failure_falls_back self messages max_tokens temperature
    stream w :
  Azure._initialized self = true ->
  let request :=
    request_for messages "gpt-4" max_tokens temperature stream in
  (attempt_fails w request ->
   exists w1,
     Azure.sent w1 = Azure.sent w ++ [request]
     /\ chat_completion self messages "gpt-4" max_tokens temperature stream w
        = chat_completion self messages "gpt-35-turbo" max_tokens
            temperature stream w1
     /\ Azure.sent
          (snd (chat_completion self messages "gpt-4" max_tokens temperature
                  stream w))
        = Azure.sent w1
          ++ [request_for messages "gpt-35-turbo" max_tokens temperature
                stream]
     /\ forall reply w',
          chat_completion self messages "gpt-4" max_tokens temperature
            stream w = (Azure.Returns reply, w') ->
          Azure.reply_model reply = "gpt-35-turbo")
  /\ (forall message,
        attempt_interrupted w request message ->
        chat_completion self messages "gpt-4" max_tokens temperature stream w
        = (Azure.Raises (Azure.Upstream (Azure.BaseOnly message)),
           {| Azure.sent := Azure.sent w ++ [request];
              Azure.clock := S (Azure.clock w) |})).
Proof.
  intros Hinit request. subst request.
  assert (Hturbo : forall w1,
             chat_completion_fuel 1 self messages "gpt-35-turbo" max_tokens
               temperature stream w1
             = chat_completion self messages "gpt-35-turbo" max_tokens
                 temperature stream w1).
  { intros w1. symmetry. unfold Azure.chat_completion.
    apply chat_completion_one_level. discriminate. }
  assert (Hsent : forall w1,
             Azure.sent
               (snd (chat_completion_fuel 1 self messages "gpt-35-turbo"
                       max_tokens temperature stream w1))
             = Azure.sent w1
               ++ [request_for messages "gpt-35-turbo" max_tokens
                     temperature stream]).
  { intros w1. rewrite chat_completion_step by exact Hinit.
    unfold on_failure. cbn [String.eqb Ascii.eqb Bool.eqb]. cbv zeta.
    destruct stream; service_cases; reflexivity. }
  assert (Hmodel : forall w1 reply w',
             chat_completion_fuel 1 self messages "gpt-35-turbo" max_tokens
               temperature stream w1 = (Azure.Returns reply, w') ->
             Azure.reply_model reply = "gpt-35-turbo").
  { intros w1 reply w'. rewrite chat_completion_step by exact Hinit.
    unfold on_failure. cbn [String.eqb Ascii.eqb Bool.eqb]. cbv zeta.
    destruct stream; service_cases; intros [= <- <-]; reflexivity. }
  split.
  - intros Hfail.
    unfold Azure.chat_completion at 1 3 4.
    rewrite chat_completion_step by exact Hinit.
    unfold on_failure. cbn [String.eqb Ascii.eqb Bool.eqb]. cbv zeta.
    unfold attempt_fails in Hfail.
    cbn [Azure.stream request_for] in Hfail.
    destruct stream.
    + destruct Hfail as (message & ->). cbn [Azure.is_exception].
      eexists.
      split; [|split; [apply Hturbo|split; [apply Hsent|apply Hmodel]]].
      reflexivity.
    + destruct Hfail as [(message & ->)|(response & -> & ->)];
        cbn [Azure.is_exception];
        (eexists; split;
         [|split; [apply Hturbo|split; [apply Hsent|apply Hmodel]]]);
        reflexivity.
  - intros message Hint.
    unfold Azure.chat_completion.
    rewrite chat_completion_step by exact Hinit.
    unfold on_failure, attempt_interrupted in *.
    cbn [Azure.stream request_for] in Hint. cbv zeta.
    destruct stream; rewrite Hint; reflexivity.
Qed.

(** X20. The reply tells which model answered: it names "gpt-35-turbo",
    and "gpt-4" was asked for, when two requests were sent; in every other
    case it names the model asked for. *)
Theorem reply_names_model_or_fallback self messages model_id max_tokens
    temperature stream w reply w' :
  chat_completion self messages model_id max_tokens temperature stream w
  = (Azure.Returns reply, w') ->
  (length (Azure.sent w') = (length (Azure.sent w) + 2)%nat ->
   model_id = "gpt-4" /\ Azure.reply_model reply = "gpt-35-turbo")
  /\ (length (Azure.sent w') <> (length (Azure.sent w) + 2)%nat ->
      Azure.reply_model reply = model_id).
Proof.
  unfold Azure.chat_completion.
  destruct (Azure._initialized self) eqn:Hinit.
  - rewrite chat_completion_step by exact Hinit. unfold on_failure.
    destruct (String.eqb_spec model_id "gpt-4") as [->|Hne]; cbv zeta.
    + destruct stream; service_cases;
        rewrite ?chat_completion_step by exact Hinit; unfold on_failure;
        cbn [String.eqb Ascii.eqb Bool.eqb Azure.is_exception]; cbv zeta;
        service_cases; cbn [Azure.raise Azure.sent];
        intros [= <- <-]; cbn [Azure.reply_model Azure.sent];
        rewrite ?length_app; cbn [length];
        (split; [intros Hlen|intros Hlen]);
        first [ split; reflexivity | reflexivity | lia ].
    + destruct stream; service_cases; cbn [Azure.raise];
        intros [= <- <-]; cbn [Azure.reply_model Azure.sent];
        rewrite ?length_app; cbn [length];
        (split; [intros Hlen; lia|intros _; reflexivity]).
  - destruct (chat_completion_mock 1 self messages model_id max_tokens
                temperature stream w Hinit) as (t & H & _).
    rewrite H. intros [= <- <-]. cbn [Azure.reply_model].
    split; [intros Hlen; lia|intros _; reflexivity].
Qed.

End AzureClient.

(** ** Streaming *)

(** A string without its white space. *)
Fixpoint without_space (s : string) : string :=
  match s with
  | EmptyString => EmptyString
  | String c s' =>
      if Unicode.isspace c then without_space s'
      else String c (without_space s')
  end.

(** [full_response] of the streaming endpoint: the chunks, joined. *)
Definition joined (chunks : list string) : string :=
  fold_right String.append EmptyString chunks.

Lemma without_space_append a b :
  without_space (a ++ b) = (without_space a ++ without_space b)%string.
Proof.
  induction a as [|c a IH]; [reflexivity|].
  simpl. destruct (Unicode.isspace c); simpl; rewrite IH; reflexivity.
Qed.

Lemma append_empty_r (s : string) : (s ++ EmptyString)%string = s.
Proof.
  induction s as [|c s IH]; [reflexivity|].
  change (String c (s ++ EmptyString)%string = String c s).
  rewrite IH. reflexivity.
Qed.

Lemma without_space_chunk word rest :
  without_space ((word ++ " ") ++ rest)
  = (without_space word ++ without_space rest)%string.
Proof.
  rewrite !without_space_append.
  change (without_space " ") with EmptyString.
  rewrite append_empty_r. reflexivity.
Qed.

Lemma without_space_joined word words :
  without_space
    (joined (map (fun word => (word ++ " ")%string) (word :: words)))
  = (without_space word
     ++ without_space
          (joined (map (fun word => (word ++ " ")%string) words)))%string.
Proof. cbn [map joined fold_right]. apply without_space_chunk. Qed.

Lemma without_space_keeps c s :
  Unicode.isspace c = false ->
  without_space (String c s) = String c (without_space s).
Proof. intros H. cbn [without_space]. rewrite H. reflexivity. Qed.

(** Splitting, adding a space to each word and joining loses white space
    only. *)
Lemma split_keeps_text s :
  without_space
    (joined (map (fun word => (word ++ " ")%string) (Azure.split s)))
  = without_space s.
Proof.
  induction s as [|c s IH]; [reflexivity|].
  cbn [Azure.split].
  destruct (Unicode.isspace c) eqn:Hc.
  { cbn [without_space]. rewrite Hc. exact IH. }
  rewrite (without_space_keeps c s Hc).
  destruct s as [|c' s'].
  - rewrite without_space_joined, (without_space_keeps c _ Hc). reflexivity.
  - destruct (Unicode.isspace c') eqn:Hc'.
    + rewrite without_space_joined, IH, (without_space_keeps c _ Hc).
      reflexivity.
    + destruct (Azure.split (String c' s')) as [|word words]; rewrite <- IH.
      * rewrite without_space_joined, (without_space_keeps c _ Hc).
        reflexivity.
      * rewrite !without_space_joined, (without_space_keeps c _ Hc).
        reflexivity.
Qed.

(** The loop of [_mock_stream_response]. *)
Lemma for_each_yield (words : list string) (w : Azure.World) :
  Azure.for_each words (fun word => Azure.yield (word ++ " ")%string) w
  = ((map (fun word => (word ++ " ")%string) words, Azure.Returns tt), w).
Proof.
  induction words as [|word words IH]; [reflexivity|].
  cbn [Azure.for_each map]. unfold Azure.gbind, Azure.yield at 1.
  rewrite IH. reflexivity.
Qed.

(** The body of the loop of [chat_completion_stream]. *)
Definition relay (deltas : list (option string)) : Azure.G unit :=
  match deltas with
  | Some text :: _ =>
      if truthy_str text then Azure.yield text else Azure.gret tt
  | _ => Azure.gret tt
  end.

(** The loop over the stream touches nothing in the world, yields no empty
    chunk, and ends by returning or with the exception that breaks the
    stream. *)
Lemma async_for_relay response w :
  exists chunks outcome,
    Azure.async_for response relay w = ((chunks, outcome), w)
    /\ Forall (fun chunk => chunk <> EmptyString) chunks
    /\ (outcome = Azure.Returns tt
        \/ exists e, outcome = Azure.Raises (Azure.Upstream e)).
Proof.
  induction response as [|event rest IH].
  - exists [], (Azure.Returns tt). repeat split; [constructor|left; reflexivity].
  - destruct event as [deltas|e]; cbn [Azure.async_for].
    + destruct IH as (chunks & outcome & Hrun & Hne & Hout).
      unfold Azure.gbind.
      assert (Hbody : exists first,
                 relay deltas w = ((first, Azure.Returns tt), w)
                 /\ Forall (fun chunk => chunk <> EmptyString) first).
      { unfold relay. destruct deltas as [|[text|] others];
          try (exists []; split; [reflexivity|constructor]).
        destruct text as [|c text]; cbn [truthy_str].
        - exists []. split; [reflexivity|constructor].
        - eexists [_]. split; [reflexivity|].
          constructor; [discriminate|constructor]. }
      destruct Hbody as (first & -> & Hfirst). rewrite Hrun.
      exists (first ++ chunks), outcome. split; [reflexivity|].
      split; [|exact Hout]. apply Forall_app. split; assumption.
    + exists [], (Azure.Raises (Azure.Upstream e)).
      split; [reflexivity|]. split; [constructor|]. right. eexists.
      reflexivity.
Qed.

Section AzureStream.

Variable settings : Config.Settings.
Variable completions_create :
  list Azure.Request -> Azure.Request
  -> Azure.ServiceException + Azure.ChatCompletion.
Variable completions_stream :
  list Azure.Request -> Azure.Request
  -> Azure.ServiceException + Azure.AsyncStream.
Variable gpt4_mock_text : string -> string.
Variable turbo_mock_text : string -> string.

Local Abbreviation chat_completion :=
  (Azure.chat_completion settings completions_create completions_stream
     gpt4_mock_text turbo_mock_text).
Local Abbreviation chat_completion_stream :=
  (Azure.chat_completion_stream settings completions_stream
     gpt4_mock_text turbo_mock_text).



End AzureStream.

(** ** Follow-up suggestions *)

Section SuggestionFacts.

Variable uuid4 : nat -> string.
Variable commit : list Services.DbCall -> option string.

Lemma add_suggestions_rows message_id texts w :
  exists rows,
    Services.calls (Services.add_suggestions uuid4 message_id texts w)
    = Services.calls w ++ map Services.Add rows
    /\ map Services.suggestion_text rows = texts
    /\ Forall (fun row => Services.message_id row = message_id
                          /\ Services.category row = "follow_up") rows.
Proof.
  revert w. induction texts as [|text texts IH]; intros w.
  - exists []. split; [symmetry; apply app_nil_r|]. split; constructor.
  - cbn [Services.add_suggestions].
    destruct (IH {| Services.calls := Services.calls w ++
                      [Services.Add
                         {| Services.id := uuid4 (Services.uuids w);
                            Services.message_id := message_id;
                            Services.suggestion_text := text;
                            Services.category := "follow_up";
                            Services.created_at := Services.clock w |}];
                    Services.uuids := S (Services.uuids w);
                    Services.clock := S (Services.clock w) |})
      as (rows & Hc & Ht & Hf).
    eexists (_ :: rows). split; [|split].
    + rewrite Hc. cbn [Services.calls map]. rewrite <- app_assoc. reflexivity.
    + cbn [map Services.suggestion_text]. rewrite Ht. reflexivity.
    + constructor; [split; reflexivity|exact Hf].
Qed.

Lemma suggestions_for_cut content :
  (1 <= length (firstn 3 (Services.suggestions_for content)) <= 3)%nat.
Proof.
  unfold Services.suggestions_for.
  destruct (Str.contains (Str.lower content) "code"
            || Str.contains content "```");
    destruct (Str.contains (Str.lower content) "error"
              || Str.contains (Str.lower content) "exception");
    cbn; lia.
Qed.

(** X23. [generate_suggestions] hands the session between one and three
    rows and then commits, once; every row has the message id it was
    given and the category "follow_up"; and the list it returns, when
    [commit] does not raise, is the texts of those rows, in their order. *)
Theorem generate_suggestions_stores_what_it_returns
    (message_id content : string) (w : Services.World) :
  exists rows,
    let result :=
      Services.generate_suggestions uuid4 commit message_id content w in
    Services.calls (snd result)
    = Services.calls w ++ map Services.Add rows ++ [Services.Commit]
    /\ (1 <= length rows <= 3)%nat
    /\ Forall (fun row => Services.message_id row = message_id
                          /\ Services.category row = "follow_up") rows
    /\ (forall texts, fst result = inr texts ->
                      texts = map Services.suggestion_text rows)
    /\ (commit (Services.calls w ++ map Services.Add rows) = None ->
        fst result = inr (map Services.suggestion_text rows)).
Proof.
  destruct (add_suggestions_rows message_id
              (firstn 3 (Services.suggestions_for content)) w)
    as (rows & Hc & Ht & Hf).
  exists rows. cbv zeta. unfold Services.generate_suggestions. cbv zeta.
  rewrite Hc.
  assert (Hlen : (1 <= length rows <= 3)%nat).
  { rewrite <- (length_map Services.suggestion_text), Ht.
    apply suggestions_for_cut. }
  destruct (commit _) as [message|] eqn:Hcommit; cbn [fst snd Services.calls].
  - split; [rewrite <- app_assoc; reflexivity|]. split; [exact Hlen|].
    split; [exact Hf|]. split; [intros texts H; discriminate H|].
    intros H; discriminate H.
  - split; [rewrite <- app_assoc; reflexivity|]. split; [exact Hlen|].
    split; [exact Hf|]. rewrite Ht.
    split; [intros texts [= <-]; reflexivity|]. reflexivity.
Qed.

(** X24. The fourth suggestion is cut: "How can I prevent this in the
    future?" is returned exactly when the content mentions an error or an
    exception and shows no sign of code; with both signs the list is the
    two code suggestions and "What causes this error?". *)
Theorem prevention_suggestion_needs_no_code
    (message_id content : string) (w w' : Services.World)
    (texts : list string) :
  Services.generate_suggestions uuid4 commit message_id content w
  = (inr texts, w') ->
  let code :=
    Str.contains (Str.lower content) "code" || Str.contains content "```" in
  let failure :=
    Str.contains (Str.lower content) "error"
    || Str.contains (Str.lower content) "exception" in
  (In "How can I prevent this in the future?" texts
   <-> failure = true /\ code = false)
  /\ (code = true -> failure = true ->
      texts = [ "Can you explain this code step by step?";
                "How can I optimize this code?";
                "What causes this error?" ]).
Proof.
  unfold Services.generate_suggestions. cbv zeta.
  destruct (commit _); [discriminate|]. intros [= <- _].
  unfold Services.suggestions_for.
  destruct (Str.contains (Str.lower content) "code"
            || Str.contains content "```");
    destruct (Str.contains (Str.lower content) "error"
              || Str.contains (Str.lower content) "exception");
    cbn [truthy_list negb app firstn In]; split;
    try (intros; first [reflexivity | discriminate]);
    split;
    try (intros [? ?]; discriminate);
    try (intros _; split; reflexivity);
    try (intros H; exfalso;
         repeat destruct H as [H|H]; try discriminate H; exact H);
    try (intros _; right; left; reflexivity).
Qed.

End SuggestionFacts.

(** ** Runs against a scripted service *)

(** A client that [initialize] found configured. *)
Definition ready_client : Azure.AzureOpenAIClient :=
  Azure.initialize "https://example.openai.azure.com" "key" true true
    Azure.azure_client.

(** A service that refuses every request. *)
Definition service_down (history : list Azure.Request)
    (request : Azure.Request)
    : Azure.ServiceException + Azure.ChatCompletion :=
  inl (Azure.Ordinary "503 Service Unavailable").

Definition stream_down (history : list Azure.Request)
    (request : Azure.Request) : Azure.ServiceException + Azure.AsyncStream :=
  inl (Azure.Ordinary "503 Service Unavailable").

(** A call during which the task is cancelled. *)
Definition task_cancelled (history : list Azure.Request)
    (request : Azure.Request)
    : Azure.ServiceException + Azure.ChatCompletion :=
  inl (Azure.BaseOnly "").

(** A service whose "gpt-4" deployment is over its quota while the other
    one answers. *)
Definition gpt4_over_quota (history : list Azure.Request)
    (request : Azure.Request)
    : Azure.ServiceException + Azure.ChatCompletion :=
  if String.eqb (Azure.model request) "gpt-4"
  then inl (Azure.Ordinary "429 Too Many Requests")
  else inr {| Azure.choices :=
                [ {| Azure.message_content := Some "Hi!";
                     Azure.finish_reason := "stop" |} ];
              Azure.usage := Some 12 |}.

Definition mock_text (user_message : string) : string :=
  ("Mock reply  to: " ++ user_message)%string.

Definition hello : list Azure.Message :=
  [ {| Azure.role := "user"; Azure.content := "Hello there" |} ].

Definition fresh_world : Azure.World :=
  {| Azure.sent := []; Azure.clock := 0 |}.

Lemma failure_propagates_without_fallback_witness :
  Azure._initialized ready_client = true
  /\ "gpt-35-turbo" <> "gpt-4"
  /\ Azure.chat_completion Config.default_settings service_down stream_down
       mock_text mock_text ready_client hello "gpt-35-turbo" 2048 (7 # 10)
       false fresh_world
     = (Azure.Raises
          (Azure.Upstream (Azure.Ordinary "503 Service Unavailable")),
        {| Azure.sent :=
             [ {| Azure.model := "gpt-35-turbo"; Azure.messages := hello;
                  Azure.max_tokens := 2048; Azure.temperature := 7 # 10;
                  Azure.stream := false |} ];
           Azure.clock := 1 |}).
Proof.
  split; [reflexivity|]. split; [discriminate|].
  pose proof (failure_propagates_without_fallback Config.default_settings
                service_down stream_down mock_text mock_text ready_client
                hello "gpt-35-turbo" 2048 (7 # 10) fresh_world eq_refl
                ltac:(discriminate)) as H.
  cbv zeta in H. destruct H as (H & _).
  apply (H (Azure.Ordinary "503 Service Unavailable")). reflexivity.
Defined.

Lemma gpt4_failure_falls_back_witness :
  let request :=
    request_for Config.default_settings hello "gpt-4" 2048 (7 # 10) false in
  Azure._initialized ready_client = true
  /\ attempt_fails gpt4_over_quota stream_down fresh_world request
  /\ Azure.chat_completion Config.default_settings gpt4_over_quota stream_down
       mock_text mock_text ready_client hello "gpt-4" 2048 (7 # 10) false
       fresh_world
     = (Azure.Returns
          (Azure.Completed (Some "Hi!") "gpt-35-turbo" 12 (Azure.Elapsed 1 2)
             "stop" false),
        {| Azure.sent :=
             [ request;
               request_for Config.default_settings hello "gpt-35-turbo" 2048
                 (7 # 10) false ];
           Azure.clock := 3 |})
  /\ (exists w1,
        Azure.sent w1 = Azure.sent fresh_world ++ [request]
        /\ Azure.chat_completion Config.default_settings gpt4_over_quota
             stream_down mock_text mock_text ready_client hello "gpt-4" 2048
             (7 # 10) false fresh_world
           = Azure.chat_completion Config.default_settings gpt4_over_quota
               stream_down mock_text mock_text ready_client hello
               "gpt-35-turbo" 2048 (7 # 10) false w1)
  /\ attempt_interrupted task_cancelled stream_down fresh_world request ""
  /\ Azure.chat_completion Config.default_settings task_cancelled stream_down
       mock_text mock_text ready_client hello "gpt-4" 2048 (7 # 10) false
       fresh_world
     = (Azure.Raises (Azure.Upstream (Azure.BaseOnly "")),
        {| Azure.sent := [request]; Azure.clock := 1 |}).
Proof.
  intros request.
  assert (Hfail : attempt_fails gpt4_over_quota stream_down fresh_world
                    request).
  { left. exists "429 Too Many Requests". reflexivity. }
  assert (Hint : attempt_interrupted task_cancelled stream_down fresh_world
                   request "") by reflexivity.
  split; [reflexivity|]. split; [exact Hfail|]. split; [reflexivity|].
  split.
  - pose proof (gpt4_failure_falls_back Config.default_settings
                  gpt4_over_quota stream_down mock_text mock_text
                  ready_client hello 2048 (7 # 10) false fresh_world eq_refl)
      as H.
    cbv zeta in H. destruct H as (H & _).
    destruct (H Hfail) as (w1 & Hs & He & _).
    exists w1. split; [exact Hs|exact He].
  - split; [exact Hint|].
    pose proof (gpt4_failure_falls_back Config.default_settings
                  task_cancelled stream_down mock_text mock_text
                  ready_client hello 2048 (7 # 10) false fresh_world eq_refl)
      as H.
    cbv zeta in H. destruct H as (_ & H). exact (H "" Hint).
Defined.

Lemma reply_names_model_or_fallback_witness :
  let reply :=
    Azure.Completed (Some "Hi!") "gpt-35-turbo" 12 (Azure.Elapsed 1 2)
      "stop" false in
  let after :=
    {| Azure.sent :=
         [ request_for Config.default_settings hello "gpt-4" 2048 (7 # 10)
             false;
           request_for Config.default_settings hello "gpt-35-turbo" 2048
             (7 # 10) false ];
       Azure.clock := 3 |} in
  Azure.chat_completion Config.default_settings gpt4_over_quota stream_down
    mock_text mock_text ready_client hello "gpt-4" 2048 (7 # 10) false
    fresh_world = (Azure.Returns reply, after)
  /\ (length (Azure.sent after)
      = (length (Azure.sent fresh_world) + 2)%nat ->
      "gpt-4" = "gpt-4" /\ Azure.reply_model reply = "gpt-35-turbo")
  /\ (length (Azure.sent after)
      <> (length (Azure.sent fresh_world) + 2)%nat ->
      Azure.reply_model reply = "gpt-4").
Proof.
  intros reply after. split; [reflexivity|].
  apply (reply_names_model_or_fallback Config.default_settings
           gpt4_over_quota stream_down mock_text mock_text ready_client hello
           "gpt-4" 2048 (7 # 10) false fresh_world reply after).
  reflexivity.
Defined.


Lemma prevention_suggestion_needs_no_code_witness :
  let uuid4 (n : nat) := "5f0c1d2e-0000-4000-8000-000000000000" in
  let commit (calls : list Services.DbCall) := @None string in
  let w := {| Services.calls := []; Services.uuids := 0;
              Services.clock := 0 |} in
  let texts := [ "What causes this error?";
                 "How can I prevent this in the future?" ] in
  fst (Services.generate_suggestions uuid4 commit "m1"
         "I got an Error when I ran it" w) = inr texts
  /\ (In "How can I prevent this in the future?" texts
      <-> Str.contains (Str.lower "I got an Error when I ran it") "error"
          || Str.contains (Str.lower "I got an Error when I ran it")
               "exception" = true
          /\ Str.contains (Str.lower "I got an Error when I ran it") "code"
             || Str.contains "I got an Error when I ran it" "```" = false).
Proof.
  intros uuid4 commit w texts. split; [vm_compute; reflexivity|].
  pose proof (prevention_suggestion_needs_no_code uuid4 commit "m1"
                "I got an Error when I ran it" w
                (snd (Services.generate_suggestions uuid4 commit "m1"
                        "I got an Error when I ran it" w))
                texts ltac:(vm_compute; reflexivity)) as H.
  cbv zeta in H. exact (proj1 H).
Defined.
